(** * cognibot backend: the text extractors and the difficulty selector

    A shallow embedding of the parts of [backend/app.py] that turn the
    free-form output of the language model into records (the quiz parser
    of [upload_pdf], the schedule parser of
    [generate_study_schedule_from_pdf], [generate_fallback_schedule]) and of
    the adaptive-difficulty query of [upload_pdf].

    Conventions of the embedding.
    - A Python [str] is a [string]; its characters stand for the code
      points 0..255.
    - A Python dict whose keys come from a fixed set is a record of
      [option] fields: [None] is an absent key, and the dict is truthy
      exactly when some field is present.
    - An exception raised inside a [try] block is a value of [result].
    - The external services (completion gateway, PDF text extraction) are
      Section variables or outcomes handed to the function.
    - A [float] of Python and a REAL of SQLite are binary64 values, with
      the operations of IEEE 754 (module [Binary64]); an INTEGER of SQLite is
      a 64-bit signed integer. *)

From Stdlib Require Import String Ascii List Bool Arith NArith ZArith QArith Lia.
From Stdlib Require Import DecimalString SpecFloat.
Import ListNotations.

(** ** Python string methods *)

Module PyStr.

Local Open Scope string_scope.

(** The line feed, the separator of [text.split('\n')]. *)
Definition nl : string := String "010"%char "".

(** [str.isspace] on one character with a code point below 256. *)
Definition is_space (c : ascii) : bool :=
  let n := N_of_ascii c in
  ((9 <=? n) && (n <=? 13) || (28 <=? n) && (n <=? 32)
   || (n =? 133) || (n =? 160))%N.

Fixpoint lstrip (s : string) : string :=
  match s with
  | "" => ""
  | String c s' => if is_space c then lstrip s' else s
  end.

Fixpoint rstrip (s : string) : string :=
  match s with
  | "" => ""
  | String c s' =>
      match rstrip s' with
      | "" => if is_space c then "" else String c ""
      | r => String c r
      end
  end.

(** [s.strip()] *)
Definition strip (s : string) : string := rstrip (lstrip s).

(** [s.startswith(p)] *)
Fixpoint startswith (s p : string) {struct p} : bool :=
  match p with
  | "" => true
  | String a p' =>
      match s with
      | "" => false
      | String b s' => Ascii.eqb a b && startswith s' p'
      end
  end.

(** [s.startswith((p1, p2, ...))] *)
Definition startswith_any (s : string) (ps : list string) : bool :=
  existsb (startswith s) ps.

(** [sub in s] *)
Fixpoint contains (s sub : string) : bool :=
  startswith s sub
  || match s with
     | "" => false
     | String _ s' => contains s' sub
     end.

(** [s.split(sep)] for a non-empty [sep]: the pieces between the
    occurrences of [sep], found from left to right without overlap.
    [skip] counts the characters of a matched separator still to drop. *)
Fixpoint split_from (sep : string) (skip : nat) (s : string) : list string :=
  match s with
  | "" => [""]
  | String c s' =>
      match skip with
      | S k => split_from sep k s'
      | O =>
          if startswith s sep
          then "" :: split_from sep (String.length sep - 1) s'
          else match split_from sep 0 s' with
               | piece :: rest => String c piece :: rest
               | [] => [String c ""]
               end
      end
  end.

Definition split (s sep : string) : list string := split_from sep 0 s.

(** [s.replace(old, new)] for a non-empty [old]. *)
Fixpoint replace_from (old new : string) (skip : nat) (s : string) : string :=
  match s with
  | "" => ""
  | String c s' =>
      match skip with
      | S k => replace_from old new k s'
      | O =>
          if startswith s old
          then new ++ replace_from old new (String.length old - 1) s'
          else String c (replace_from old new 0 s')
      end
  end.

Definition replace (s old new : string) : string := replace_from old new 0 s.

(** [sep.join(parts)] *)
Fixpoint join (sep : string) (parts : list string) : string :=
  match parts with
  | [] => ""
  | [p] => p
  | p :: ps => p ++ sep ++ join sep ps
  end.

(** Truthiness of a [str]: [not line] is [is_empty line]. *)
Definition is_empty (s : string) : bool :=
  match s with "" => true | _ => false end.


(** [str(i)] for an [int]. *)
Definition str_of_int (i : Z) : string := NilZero.string_of_int (Z.to_int i).

End PyStr.

(** ** The schedule extractor *)

Module Schedule.

Import PyStr.
Local Open Scope string_scope.

(** The dict [current_day]; its keys are among ['day'], ['topics'],
    ['activities'] and ['duration']. *)
Record day_entry : Type := mk_day {
  day : option string;
  topics : option string;
  activities : option string;
  duration : option string
}.

(** [{}] *)
Definition empty_day : day_entry := mk_day None None None None.

(** Truthiness of the dict: it has at least one key. *)
Definition truthy (d : day_entry) : bool :=
  match d with
  | mk_day None None None None => false
  | _ => true
  end.

(** ['topics' in current_day] *)
Definition has_topics (d : day_entry) : bool :=
  match topics d with Some _ => true | None => false end.

Definition set_topics (d : day_entry) (v : string) : day_entry :=
  mk_day (day d) (Some v) (activities d) (duration d).
Definition set_activities (d : day_entry) (v : string) : day_entry :=
  mk_day (day d) (topics d) (Some v) (duration d).
Definition set_duration (d : day_entry) (v : string) : day_entry :=
  mk_day (day d) (topics d) (activities d) (Some v).

(** [line.split(':')[0]]: a split always has a first piece. *)
Definition before_colon (line : string) : string :=
  match split line ":" with
  | piece :: _ => piece
  | [] => ""
  end.

(** The loop state: the list [schedule] and the dict [current_day]. *)
Definition state : Type := (list day_entry * day_entry)%type.

(** [if current_day and 'topics' in current_day: schedule.append(current_day)] *)
Definition flush (st : state) : list day_entry :=
  let (schedule, current_day) := st in
  if truthy current_day && has_topics current_day
  then schedule ++ [current_day]
  else schedule.

(** One iteration of [for line in schedule_text.split('\n')].  In Python
    [a or b and c] is [a or (b and c)]: the dashed markers are taken
    whatever [current_day] is. *)
Definition step (st : state) (raw : string) : state :=
  let line := strip raw in
  if is_empty line then st
  else
    let (schedule, current_day) := st in
    if startswith line "Day " then
      (flush st, mk_day (Some (strip (before_colon line))) None None None)
    else if startswith line "- Topics:"
            || startswith line "Topics:" && truthy current_day then
      (schedule,
       set_topics current_day
         (strip (replace (replace line "- Topics:" "") "Topics:" "")))
    else if startswith line "- Activities:"
            || startswith line "Activities:" && truthy current_day then
      (schedule,
       set_activities current_day
         (strip (replace (replace line "- Activities:" "") "Activities:" "")))
    else if startswith line "- Duration:"
            || startswith line "Duration:" && truthy current_day then
      (schedule,
       set_duration current_day
         (strip (replace (replace line "- Duration:" "") "Duration:" "")))
    else st.

(** The loop over a list of lines, then the flush of the last day. *)
Definition parse_lines (lines : list string) : list day_entry :=
  flush (fold_left step lines ([], empty_day)).

(** The parse of [schedule_text] in [generate_study_schedule_from_pdf]. *)
Definition parse_schedule (schedule_text : string) : list day_entry :=
  parse_lines (split schedule_text nl).

(** *** Kinds of lines *)

(** The line opens a day: the first test of the loop body. *)
Definition is_day_header (raw : string) : bool :=
  startswith (strip raw) "Day ".

(** The line starts with a topics marker, dashed or not. *)
Definition is_topics_line (raw : string) : bool :=
  startswith (strip raw) "- Topics:" || startswith (strip raw) "Topics:".

(** *** Two texts *)

(** A header followed by an empty topics line. *)
Definition header_with_empty_topics : string := "Day 1:" ++ nl ++ "- Topics:".

(** The text of the end-to-end example of the specification. *)
Definition two_day_text : string :=
  "Day 1:" ++ nl ++ "- Topics: intro" ++ nl ++ "- Activities: read" ++ nl
  ++ "- Duration: 1 hour" ++ nl ++ "Day 2:" ++ nl ++ "- Topics: advanced".

(** *** The fallback schedule and the whole operation *)

(** [range(lo, hi)] *)
Definition py_range (lo hi : Z) : list Z :=
  map (fun k => (lo + Z.of_nat k)%Z) (seq 0 (Z.to_nat (hi - lo))).

(** The outcome of the completion call made inside the [try] block: an
    exception, or the generated text. *)
Inductive completion : Type :=
| Failed
| Generated (schedule_text : string).

Section Operation.

(** [hours_per_day] is a Python [float]; [format_hours] is its rendering
    by the f-string [f'{hours_per_day}']. *)
Variable hours : Type.
Variable format_hours : hours -> string.

(** [client.chat.completions.create] on the prompt built from
    [duration_days], [hours_per_day] and [pdf_text[:8000]]. *)
Variable create_completion : Z -> hours -> string -> completion.

Definition fallback_entry (hours_per_day : hours) (i : Z) : day_entry :=
  mk_day (Some ("Day " ++ str_of_int i))
         (Some ("Study session " ++ str_of_int i ++ ": Review PDF materials"))
         (Some "Read chapters, take notes, review key concepts")
         (Some (format_hours hours_per_day ++ " hours")).

Definition generate_fallback_schedule
    (duration_days : Z) (hours_per_day : hours) : list day_entry :=
  map (fallback_entry hours_per_day) (py_range 1 (duration_days + 1)).

Definition generate_study_schedule_from_pdf
    (pdf_text : string) (duration_days : Z) (hours_per_day : hours)
  : list day_entry :=
  match create_completion duration_days hours_per_day
          (substring 0 (Z.to_nat 8000) pdf_text) with
  | Failed => generate_fallback_schedule duration_days hours_per_day
  | Generated schedule_text =>
      match parse_schedule schedule_text with
      | [] => generate_fallback_schedule duration_days hours_per_day
      | schedule => schedule
      end
  end.

End Operation.

Arguments fallback_entry {hours} format_hours hours_per_day i.
Arguments generate_fallback_schedule {hours} format_hours duration_days
  hours_per_day.
Arguments generate_study_schedule_from_pdf {hours} format_hours
  create_completion pdf_text duration_days hours_per_day.

End Schedule.

(** ** The quiz extractor *)

Module Quiz.

Import PyStr.
Local Open Scope string_scope.

(** Exceptions of the parsing loop and of the external calls. *)
Inductive exn : Type :=
| KeyError (key : string)
| IndexError
| ExternalError (message : string).

Inductive result (A : Type) : Type :=
| Ok (a : A)
| Raise (e : exn).
Arguments Ok {A} a.
Arguments Raise {A} e.

Definition bind {A B : Type} (c : result A) (k : A -> result B) : result B :=
  match c with
  | Ok a => k a
  | Raise e => Raise e
  end.

Notation "x <- c ;; k" := (bind c (fun x => k))
  (at level 61, c at next level, right associativity).

(** The dict [current_question]; its keys are among ['question'],
    ['options'], ['answer'] and ['explanation']. *)
Record question_entry : Type := mk_question {
  question : option string;
  options : option (list string);
  answer : option string;
  explanation : option string
}.

(** [{}] *)
Definition empty_question : question_entry := mk_question None None None None.

Definition truthy (q : question_entry) : bool :=
  match q with
  | mk_question None None None None => false
  | _ => true
  end.

(** ['question' in current_question] *)
Definition has_question (q : question_entry) : bool :=
  match question q with Some _ => true | None => false end.

Definition set_options (q : question_entry) (v : list string) : question_entry :=
  mk_question (question q) (Some v) (answer q) (explanation q).
Definition set_answer (q : question_entry) (v : string) : question_entry :=
  mk_question (question q) (options q) (Some v) (explanation q).
Definition set_explanation (q : question_entry) (v : string) : question_entry :=
  mk_question (question q) (options q) (answer q) (Some v).

Definition question_markers : list string :=
  ["1."; "2."; "3."; "4."; "5."; "6."; "7."; "8."; "9."; "10."].

Definition option_markers : list string := ["A)"; "B)"; "C)"; "D)"; "E)"].

(** The first test of the loop body. *)
Definition is_question_line (line : string) : bool :=
  startswith_any line question_markers && contains line "Question:".

(** The loop state: the list [quiz_data] and the dict [current_question]. *)
Definition state : Type := (list question_entry * question_entry)%type.

(** [if current_question and 'question' in current_question:
        quiz_data.append(current_question)] *)
Definition flush (st : state) : list question_entry :=
  let (quiz_data, current_question) := st in
  if truthy current_question && has_question current_question
  then quiz_data ++ [current_question]
  else quiz_data.

(** One iteration of [for line in quiz_response.split('\n')]. *)
Definition step (st : state) (raw : string) : result state :=
  let line := strip raw in
  if is_empty line then Ok st
  else
    let (quiz_data, current_question) := st in
    if is_question_line line then
      match nth_error (split line "Question:") 1 with
      | Some rest =>
          Ok (flush st, mk_question (Some (strip rest)) (Some []) None (Some ""))
      | None => Raise IndexError
      end
    else if startswith_any line option_markers && truthy current_question then
      match options current_question with
      | Some opts =>
          Ok (quiz_data, set_options current_question (opts ++ [strip line]))
      | None => Raise (KeyError "options")
      end
    else if startswith line "Correct Answer:" && truthy current_question then
      Ok (quiz_data,
          set_answer current_question
            (strip (replace line "Correct Answer:" "")))
    else if startswith line "Explanation:" && truthy current_question then
      Ok (quiz_data,
          set_explanation current_question
            (strip (replace line "Explanation:" "")))
    else Ok st.

Fixpoint run (lines : list string) (st : state) : result state :=
  match lines with
  | [] => Ok st
  | raw :: rest => st' <- step st raw ;; run rest st'
  end.

(** The loop over a list of lines, then the flush of the last question. *)
Definition extract_lines (lines : list string) : result (list question_entry) :=
  st <- run lines ([], empty_question) ;; Ok (flush st).

(** The parse of [quiz_response] in [upload_pdf]. *)
Definition quiz_extract (quiz_response : string) : result (list question_entry) :=
  extract_lines (split quiz_response nl).

(** *** The question blocks of a text *)

(** The kinds of lines the loop body tells apart. *)
Definition starts_question (raw : string) : bool := is_question_line (strip raw).
Definition is_option_line (raw : string) : bool :=
  startswith_any (strip raw) option_markers.
Definition is_answer_line (raw : string) : bool :=
  startswith (strip raw) "Correct Answer:".
Definition is_explanation_line (raw : string) : bool :=
  startswith (strip raw) "Explanation:".

(** The values the loop body stores for such lines. *)
Definition prompt_of (raw : string) : string :=
  match nth_error (split (strip raw) "Question:") 1 with
  | Some rest => strip rest
  | None => ""
  end.
Definition answer_of (raw : string) : string :=
  strip (replace (strip raw) "Correct Answer:" "").
Definition explanation_of (raw : string) : string :=
  strip (replace (strip raw) "Explanation:" "").

(** A block: a question line and the lines that follow it up to the next
    question line. *)
Definition block : Type := (string * list string)%type.

Definition block_lines (b : block) : list string := fst b :: snd b.

Definition well_formed_block (b : block) : Prop :=
  starts_question (fst b) = true
  /\ Forall (fun raw => starts_question raw = false) (snd b).

(** The record a block stands for: the option lines in their order, the
    value of the last answer line if there is one, the value of the last
    explanation line or the empty string. *)
Definition block_record (b : block) : question_entry :=
  mk_question
    (Some (prompt_of (fst b)))
    (Some (map strip (filter is_option_line (snd b))))
    (last (map (fun raw => Some (answer_of raw))
               (filter is_answer_line (snd b))) None)
    (Some (last (map explanation_of (filter is_explanation_line (snd b))) "")).

(** *** Records in progress *)

(** The record opened by a question line. *)
Definition new_question (prompt : string) : question_entry :=
  mk_question (Some prompt) (Some []) None (Some "").

(** A record that has its prompt, its options and its explanation. *)
Definition complete (q : question_entry) : Prop :=
  (exists p, question q = Some p)
  /\ (exists o, options q = Some o)
  /\ (exists e, explanation q = Some e).

(** The state invariant of the loop: what was emitted is complete, and the
    record in progress is empty or complete. *)
Definition invariant (st : state) : Prop :=
  Forall complete (fst st) /\ (truthy (snd st) = true -> complete (snd st)).

(** The record in progress after the lines [body], none of them a question
    line: the option lines are appended in their order, the last answer
    line and the last explanation line give their values. *)
Definition absorb (q : question_entry) (body : list string) : question_entry :=
  mk_question
    (question q)
    (match options q with
     | Some o => Some (o ++ map strip (filter is_option_line body))%list
     | None => None
     end)
    (last (map (fun raw => Some (answer_of raw))
               (filter is_answer_line body)) (answer q))
    (last (map (fun raw => Some (explanation_of raw))
               (filter is_explanation_line body)) (explanation q)).

(** *** The documented quiz format *)

(** A question as the system prompt of [llm_func1] lays it out:
      [1. Question: What is the capital of France?]
      [   Options:]
      [   A) Berlin]
      [   ...]
      [   Correct Answer: C) Paris]
      [   Explanation: Paris is the capital and largest city of France.] *)
Record formatted_question : Type := mk_formatted {
  fq_prompt : string;
  fq_options : list string;
  fq_answer : string;
  fq_explanation : string
}.

Definition option_labels : list string := ["A"; "B"; "C"; "D"; "E"].

Definition render_option (labelled : string * string) : string :=
  "   " ++ fst labelled ++ ") " ++ snd labelled.

Definition render_head (marker : string) (q : formatted_question) : string :=
  marker ++ " Question: " ++ fq_prompt q.

Definition render_body (q : formatted_question) : list string :=
  ("   Options:" :: map render_option (combine option_labels (fq_options q)))
  ++ ["   Correct Answer: " ++ fq_answer q;
      "   Explanation: " ++ fq_explanation q].

Definition render_block (numbered : string * formatted_question) : block :=
  (render_head (fst numbered) (snd numbered), render_body (snd numbered)).

(** The text of a quiz: the questions numbered [1.], [2.], ... *)
Definition render_quiz (qs : list formatted_question) : string :=
  join nl (concat (map (fun nq => block_lines (render_block nq))
                       (combine question_markers qs))).



(** Two questions in the documented format. *)
Definition sample_quiz : list formatted_question :=
  [mk_formatted "What is the capital of France?"
     ["Berlin"; "Madrid"; "Paris"; "Rome"] "C) Paris"
     "Paris is the capital and largest city of France.";
   mk_formatted "What is 2 + 2? "
     ["3"; "4"; "5"; "22"; "none of these"] "B) 4" "Arithmetic."].





End Quiz.

(** ** Binary64 floating point *)

(** The [float] of Python and the REAL of SQLite: IEEE 754 binary64, every
    operation rounded to nearest, ties to even. *)
Module Binary64.

Local Open Scope Z_scope.

Definition float : Type := spec_float.

Definition prec : Z := 53.
Definition emax : Z := 1024.

Definition zero : float := S754_zero false.

(** The conversion of an integer, rounded when it has more than 53 bits. *)
Definition of_int (z : Z) : float := binary_normalize prec emax z 0 false.

Definition add (x y : float) : float := SFadd prec emax x y.
Definition mul (x y : float) : float := SFmul prec emax x y.
Definition div (x y : float) : float := SFdiv prec emax x y.

(** [x < y] *)
Definition ltb (x y : float) : bool := SFltb x y.

(** [a / b] on two [int]s of Python, [b] not zero: the quotient of the two
    integers, rounded once.  The quotient is cut after more than 60 bits
    and a last bit records whether anything was cut. *)
Definition true_divide (a b : Z) : float :=
  if a =? 0 then S754_zero (b <? 0)
  else
    let k := Z.log2 (Z.abs b) + 64 in
    let n := Z.abs a * 2 ^ k in
    let m := n / Z.abs b in
    let sticky := if n mod Z.abs b =? 0 then 0 else 1 in
    binary_normalize prec emax (Z.sgn a * Z.sgn b * (2 * m + sticky))
      (- (k + 1)) false.

End Binary64.

(** ** The difficulty selector *)

Module Difficulty.

Import Binary64.
Local Open Scope Z_scope.

(** A row of the table [quiz_attempts] (the columns the query reads):
    64-bit integers.  [created_at] is the timestamp as a number: later is
    larger. *)
Record attempt : Type := mk_attempt {
  user_id : Z;
  score : Z;
  total_questions : Z;
  created_at : Z
}.

(** ['easy'], ['medium'], ['difficult'] *)
Inductive tier : Type := Easy | Medium | Difficult.

(** [score * 100.0 / total_questions]: the integers are converted to REAL,
    the product and the quotient are rounded; in SQLite a division by zero
    is NULL. *)
Definition percent (a : attempt) : option float :=
  if total_questions a =? 0 then None
  else Some (div (mul (of_int (score a)) (of_int 100))
                 (of_int (total_questions a))).

(** The values that are not NULL. *)
Fixpoint non_null {A : Type} (vals : list (option A)) : list A :=
  match vals with
  | [] => []
  | Some v :: rest => v :: non_null rest
  | None :: rest => non_null rest
  end.

(** The aggregate [AVG]: the values that are not NULL are added one after
    the other, in the order of the rows, to a sum that starts at 0.0, and
    the sum is divided by their number; NULL when there is none. *)
Definition sql_avg (vals : list (option float)) : option float :=
  match non_null vals with
  | [] => None
  | v :: rest =>
      Some (div (fold_left add (v :: rest) zero)
                (of_int (Z.of_nat (List.length (v :: rest)))))
  end.

(** [WHERE user_id = ?] *)
Definition where_user (table : list attempt) (uid : Z) : list attempt :=
  filter (fun a => user_id a =? uid) table.

(** The result rows of
      [SELECT AVG(score * 100.0 / total_questions) as avg_score
       FROM quiz_attempts WHERE user_id = ?
       ORDER BY created_at DESC LIMIT 5].
    A SELECT with an aggregate and no GROUP BY has one result row, computed
    from all the rows the WHERE clause keeps, in the order of the table;
    ORDER BY and LIMIT apply to the result rows, here to that single row. *)
Definition avg_score_rows (table : list attempt) (uid : Z)
  : list (option float) :=
  let aggregated := [sql_avg (map percent (where_user table uid))] in
  firstn 5 aggregated.

(** [cursor.fetchone()] *)
Definition fetchone {A : Type} (rows : list A) : option A := hd_error rows.

(** The [if avg_score > 80 ... elif avg_score < 50 ... else] of [upload_pdf]. *)
Definition tier_of_score (avg_score : float) : tier :=
  if ltb (of_int 80) avg_score then Difficult
  else if ltb avg_score (of_int 50) then Easy
  else Medium.

(** The block that sets [difficulty] in [upload_pdf].  [form_user_id] is
    the form field [user_id] ([None] when it is missing or empty);
    [database] is [None] when the connection or the query raises, which
    the [except] clause turns into no adaptation. *)
Definition select_difficulty
    (adaptive : bool) (form_user_id : option Z)
    (database : option (list attempt)) : option tier :=
  match adaptive, form_user_id, database with
  | true, Some uid, Some table =>
      match fetchone (avg_score_rows table uid) with
      | Some (Some avg_score) => Some (tier_of_score avg_score)
      | _ => None
      end
  | _, _, _ => None
  end.

(** *** The selector as the specification words it *)

(** Insertion of a row into a list ordered newest first. *)
Fixpoint insert_newest_first (a : attempt) (l : list attempt) : list attempt :=
  match l with
  | [] => [a]
  | b :: rest =>
      if created_at b <=? created_at a then a :: l
      else b :: insert_newest_first a rest
  end.

Definition newest_first (l : list attempt) : list attempt :=
  fold_right insert_newest_first [] l.

(** The score history handed to the selector: the user's attempts, most
    recent first, at most [window] of them. *)
Definition recent_attempts
    (window : nat) (table : list attempt) (uid : Z) : list attempt :=
  firstn window (newest_first (where_user table uid)).

(** The mean of [correct/total * 100] over the most recent 5 attempts,
    mapped to a tier. *)
Definition windowed_difficulty (table : list attempt) (uid : Z) : option tier :=
  match sql_avg (map percent (recent_attempts 5 table uid)) with
  | Some mean => Some (tier_of_score mean)
  | None => None
  end.



(** *** Score histories *)

(** User 1: the five most recent attempts are perfect, the five before
    them score zero. *)
Definition ten_attempts : list attempt :=
  [mk_attempt 1 10 10 10; mk_attempt 1 10 10 9; mk_attempt 1 10 10 8;
   mk_attempt 1 10 10 7; mk_attempt 1 10 10 6;
   mk_attempt 1 0 10 5; mk_attempt 1 0 10 4; mk_attempt 1 0 10 3;
   mk_attempt 1 0 10 2; mk_attempt 1 0 10 1].




End Difficulty.

(** ** The quiz operation *)

Module Endpoint.

Import PyStr Quiz Difficulty.
Local Open Scope string_scope.

(** The parts of the request that [upload_pdf] reads.  [num_questions] is
    the outcome of [int(request.form.get('num_questions', 5))]: [None] when
    [int] raises ValueError on the form field, [Some 5] when the field is
    missing. *)
Record request : Type := mk_request {
  has_file : bool;
  filename : string;
  num_questions : option Z;
  form_user_id : option Z;
  adaptive : bool
}.

(** [jsonify({'quiz': ..., 'difficulty': ..., 'adaptive': ...})] with the
    status 200, or [jsonify({'error': ...})] with an error status, or the
    answer of Flask to an exception that leaves the function: the status
    500 without a JSON body. *)
Inductive response : Type :=
| Success (quiz : list question_entry) (difficulty : option tier) (adaptive : bool)
| Error (status : Z) (message : string)
| UnhandledValueError500.

(** [str(e)] *)
Definition exn_message (e : exn) : string :=
  match e with
  | KeyError key => "'" ++ key ++ "'"
  | IndexError => "list index out of range"
  | ExternalError message => message
  end.

Section QuizOperation.

(** [extract_text_from_pdf(file)] and [llm_func1(quiz_query, text,
    num_questions, difficulty)]: external, and either may raise. *)
Variable extract_text_from_pdf : result string.
Variable llm_func1 : string -> Z -> option tier -> result string.

(** The conversion of [num_questions] comes before the test on the file
    name and outside the [try]. *)
Definition upload_pdf (req : request) (database : option (list attempt))
  : response :=
  if negb (has_file req) then Error 400 "No file provided"
  else
    match num_questions req with
    | None => UnhandledValueError500
    | Some number =>
        if is_empty (filename req) then Error 400 "No file selected"
        else
          let outcome :=
            text <- extract_text_from_pdf ;;
            let difficulty :=
              select_difficulty (adaptive req) (form_user_id req) database in
            quiz_response <- llm_func1 text number difficulty ;;
            quiz_data <- quiz_extract quiz_response ;;
            Ok (Success quiz_data difficulty (adaptive req)) in
          match outcome with
          | Ok resp => resp
          | Raise e => Error 500 (exn_message e)
          end
    end.

End QuizOperation.

End Endpoint.

From Stdlib Require Import Permutation Sorted.

(** ** Kinds of lines, for both extractors *)

Module QuizLines.

Import PyStr Quiz.
Local Open Scope string_scope.

(** The line passes one of the four tests of the loop body of the quiz
    extractor (whatever the record in progress). *)
Definition recognised (raw : string) : bool :=
  negb (is_empty (strip raw))
  && (starts_question raw || is_option_line raw
      || is_answer_line raw || is_explanation_line raw).

End QuizLines.

Module ScheduleLines.

Import PyStr Schedule.
Local Open Scope string_scope.

(** The line starts with one of the seven markers of the loop body of the
    schedule extractor. *)
Definition recognised (raw : string) : bool :=
  negb (is_empty (strip raw))
  && (is_day_header raw
      || startswith (strip raw) "- Topics:" || startswith (strip raw) "Topics:"
      || startswith (strip raw) "- Activities:"
      || startswith (strip raw) "Activities:"
      || startswith (strip raw) "- Duration:"
      || startswith (strip raw) "Duration:").

(** The line starts with a dashed marker: it is taken whatever
    [current_day] is. *)
Definition is_dashed (raw : string) : bool :=
  startswith (strip raw) "- Topics:"
  || startswith (strip raw) "- Activities:"
  || startswith (strip raw) "- Duration:".

(** The label a header line gives: [line.split(':')[0].strip()]. *)
Definition label_of (raw : string) : string :=
  strip (before_colon (strip raw)).

(** ['day' in current_day] *)
Definition has_label (d : day_entry) : bool :=
  match day d with Some _ => true | None => false end.

(** *** State invariants on labels *)

(** What was emitted after the first record is labelled, and so is the day
    in progress once a record was emitted. *)
Definition labelled_after_first (st : state) : Prop :=
  Forall (fun d => has_label d = true) (tl (fst st))
  /\ (has_label (snd st) = true \/ fst st = []).

(** Everything emitted and the day in progress are labelled. *)
Definition all_labelled (st : state) : Prop :=
  Forall (fun d => has_label d = true) (fst st) /\ has_label (snd st) = true.

(** The labels of a state come from [known]. *)
Definition labels_from (known : list string) (st : state) : Prop :=
  forall d l, In d (fst st) \/ d = snd st -> day d = Some l -> In l known.

End ScheduleLines.

(** ** The lesson planner *)

(** [generate_study_schedule] and the body of the endpoint
    [generate_schedule], which repeats it with other keys (['day'],
    ['lessons'], ['hours'] for ["Day"], ["Lessons to study"],
    ["Time (hours)"]). *)
Module Lessons.

Import PyStr Schedule.
Local Open Scope string_scope.
Local Open Scope Z_scope.

Inductive plan_error : Type :=
| ZeroDivisionError
| OverflowError.

Inductive outcome (A : Type) : Type :=
| Done (a : A)
| Raised (e : plan_error).
Arguments Done {A} a.
Arguments Raised {A} e.

(** One dict of the schedule. *)
Record lesson_day (time : Type) : Type := mk_lesson_day {
  day_label : string;
  lessons : Z;
  study_hours : time
}.
Arguments mk_lesson_day {time} day_label lessons study_hours.
Arguments day_label {time} l.
Arguments lessons {time} l.
Arguments study_hours {time} l.

(** [lessons_per_day + (1 if day <= extra_lessons else 0)] *)
Definition lessons_today (lessons_per_day extra_lessons day : Z) : Z :=
  lessons_per_day + (if day <=? extra_lessons then 1 else 0).

Definition total (l : list Z) : Z := fold_right Z.add 0 l.

Section Plan.

(** [hours_per_day] is a [float].  [study_time h n q] is
    [round(h * n / (q + 1e-9), 2)], a floating-point value; it is [None]
    when the conversion of an [int] to [float] overflows. *)
Variable hours time : Type.
Variable study_time : hours -> Z -> Z -> option time.

(** The loop [for day in range(1, study_days + 1)]. *)
Fixpoint plan_days (hours_per_day : hours) (lessons_per_day extra_lessons : Z)
    (days : list Z) : outcome (list (lesson_day time)) :=
  match days with
  | [] => Done []
  | day :: rest =>
      let n := lessons_today lessons_per_day extra_lessons day in
      match study_time hours_per_day n lessons_per_day with
      | None => Raised OverflowError
      | Some t =>
          match plan_days hours_per_day lessons_per_day extra_lessons rest with
          | Done schedule =>
              Done (mk_lesson_day ("Day " ++ str_of_int day) n t :: schedule)
          | Raised e => Raised e
          end
      end
  end.

(** [//] and [%] raise on a zero divisor; otherwise they are the floor
    division and its remainder, as [Z.div] and [Z.modulo]. *)
Definition generate_study_schedule
    (total_lessons : Z) (hours_per_day : hours) (study_days : Z)
  : outcome (list (lesson_day time)) :=
  if study_days =? 0 then Raised ZeroDivisionError
  else
    let lessons_per_day := total_lessons / study_days in
    let extra_lessons := total_lessons mod study_days in
    plan_days hours_per_day lessons_per_day extra_lessons
      (py_range 1 (study_days + 1)).

(** The answer of the endpoint: the schedule with the status 200, or the
    status 500. *)
Inductive plan_response : Type :=
| PlanOk (schedule : list (lesson_day time))
| PlanError500 (e : plan_error).

Definition generate_schedule
    (total_lessons : Z) (hours_per_day : hours) (study_days : Z)
  : plan_response :=
  match generate_study_schedule total_lessons hours_per_day study_days with
  | Done schedule => PlanOk schedule
  | Raised e => PlanError500 e
  end.

End Plan.

(** A study time that is undefined where the conversion of an [int] to
    [float] overflows; the hours are kept as the product and the divisor. *)
Definition bounded_study_time (hours_per_day n q : Z) : option (Z * Z) :=
  if (Z.abs n <? 2 ^ 1024) && (Z.abs q <? 2 ^ 1024)
  then Some (hours_per_day * n, q)
  else None.

Arguments plan_days {hours time} study_time hours_per_day lessons_per_day
  extra_lessons days.
Arguments generate_study_schedule {hours time} study_time total_lessons
  hours_per_day study_days.
Arguments PlanOk {time} schedule.
Arguments PlanError500 {time} e.
Arguments generate_schedule {hours time} study_time total_lessons
  hours_per_day study_days.

End Lessons.

(** ** The export of quiz results *)

Module ResultsExport.

Import PyStr.
Local Open Scope string_scope.

(** One element of ['results']: the values of the keys ['question'],
    ['userAnswer'] and ['correctAnswer'], strings; [None] is a missing key
    or a null. *)
Record quiz_result : Type := mk_result {
  question : option string;
  userAnswer : option string;
  correctAnswer : option string
}.

(** [result.get(key, '').strip() if result.get(key) else ''] *)
Definition normalized (value : option string) : string :=
  match value with
  | Some s => if is_empty s then "" else strip s
  | None => ""
  end.

(** The text of a value in a row of the CSV: a missing value is written
    as the empty string. *)
Definition cell (value : option string) : string :=
  match value with
  | Some s => s
  | None => ""
  end.

(** [None] is the IndexError of [correct_answer[0]] on an empty string. *)
Definition is_correct (user_answer correct_answer : string) : option bool :=
  if String.eqb user_answer correct_answer then Some true
  else if String.eqb user_answer (substring 0 3 correct_answer) then Some true
  else
    match correct_answer with
    | "" => None
    | String first _ =>
        if String.eqb user_answer (String first "") then Some true
        else
          Some (negb (is_empty correct_answer)
                && negb (is_empty user_answer)
                && contains correct_answer user_answer
                && (3 <? String.length user_answer)%nat)
    end.

Definition verdict (correct : bool) : string :=
  if correct then "Correct" else "Incorrect".

Definition header : list string :=
  ["Question"; "Your Answer"; "Correct Answer"; "Result"].

(** The row written for one result. *)
Definition result_row (result : quiz_result) : option (list string) :=
  match is_correct (normalized (userAnswer result))
                   (normalized (correctAnswer result)) with
  | Some correct =>
      Some [cell (question result); cell (userAnswer result);
            cell (correctAnswer result); verdict correct]
  | None => None
  end.

(** The loop [for result in results]: it stops at the first exception. *)
Fixpoint result_rows (results : list quiz_result) : option (list (list string)) :=
  match results with
  | [] => Some []
  | result :: rest =>
      match result_row result with
      | None => None
      | Some row =>
          match result_rows rest with
          | Some rows => Some (row :: rows)
          | None => None
          end
      end
  end.

Inductive export_response : Type :=
| Csv (csv_content : string)
| NoResults400
| IndexError500.

Section Writer.

(** The text [csv.writer] produces for the rows written. *)
Variable csv_text : list (list string) -> string.

Definition export_results (results : list quiz_result) : export_response :=
  match results with
  | [] => NoResults400
  | _ =>
      match result_rows results with
      | Some rows => Csv (csv_text (header :: rows))
      | None => IndexError500
      end
  end.

End Writer.

(** The result has no correct answer but has an answer of the user. *)
Definition answer_without_key (result : quiz_result) : bool :=
  is_empty (normalized (correctAnswer result))
  && negb (is_empty (normalized (userAnswer result))).

End ResultsExport.

(** ** The tables *)

(** A table with an [INTEGER PRIMARY KEY AUTOINCREMENT]: its rows, in
    the order of their insertion, and the largest row id it ever held (its
    entry in [sqlite_sequence]).  [insert] is the insertion into a table
    that is far from the largest row id of SQLite; an endpoint whose
    answers depend on that limit tests it before it inserts.  A statement
    on a database that cannot be reached or fails is the [except] clause of
    the endpoint: the database is then [None]. *)
Module Sqlite.

Local Open Scope Z_scope.

Record table (row : Type) : Type := mk_table {
  rows : list row;
  sequence : Z
}.
Arguments mk_table {row} rows sequence.
Arguments rows {row} t.
Arguments sequence {row} t.

Definition empty {row : Type} : table row := mk_table [] 0.

Definition largest (ids : list Z) : Z := fold_right Z.max 0 ids.

(** The row id AUTOINCREMENT gives to a new row: one more than the largest
    row id the table holds or ever held. *)
Definition next_id {row : Type} (id : row -> Z) (t : table row) : Z :=
  1 + Z.max (sequence t) (largest (map id (rows t))).

(** [INSERT]: [make] builds the row from its id. *)
Definition insert {row : Type} (id : row -> Z) (make : Z -> row)
    (t : table row) : Z * table row :=
  let new_id := next_id id t in
  (new_id, mk_table (rows t ++ [make new_id]) new_id).

(** [DELETE ... WHERE id = ?] *)
Definition delete {row : Type} (id : row -> Z) (key : Z) (t : table row)
  : table row :=
  mk_table (filter (fun r => negb (id r =? key)) (rows t)) (sequence t).

(** [ORDER BY ... DESC] on an integer key: the larger keys first; rows
    with equal keys keep the order of the table, as SQLite returns them
    (SQL leaves their order open).  [insert_desc] puts a row before the
    first row whose key is not larger. *)
Fixpoint insert_desc {row : Type} (key : row -> Z) (r : row) (l : list row)
  : list row :=
  match l with
  | [] => [r]
  | r' :: rest =>
      if key r' <=? key r then r :: l else r' :: insert_desc key r rest
  end.

Definition order_by_desc {row : Type} (key : row -> Z) (l : list row)
  : list row :=
  fold_right (insert_desc key) [] l.

(** An integer parameter of a statement must fit the 64-bit INTEGER of
    SQLite: [execute] raises OverflowError on a larger one. *)
Definition fits (v : Z) : bool := (- 2 ^ 63 <=? v) && (v <? 2 ^ 63).

(** The ids of a table are distinct and not above its sequence. *)
Definition well_formed {row : Type} (id : row -> Z) (t : table row) : Prop :=
  NoDup (map id (rows t)) /\ Forall (fun r => 0 < id r <= sequence t) (rows t).

End Sqlite.

(** ** User accounts *)

Module Accounts.

Import PyStr Sqlite.
Local Open Scope string_scope.

(** A row of [users] (the columns the endpoints read). *)
Record user : Type := mk_user {
  id : Z;
  username : string
}.

(** [SELECT id FROM users WHERE username = ?] and [fetchone()]. *)
Definition select_user (name : string) (t : table user) : option user :=
  find (fun u => String.eqb (username u) name) (rows t).

Inductive account_response : Type :=
| Account (user_id : Z) (username : string)
| UsernameRequired400
| UsernameExists409
| AccountError500.

(** [not username]: the key is missing, null or the empty string. *)
Definition given (username : option string) : option string :=
  match username with
  | Some name => if is_empty name then None else Some name
  | None => None
  end.

Definition register_user (username : option string)
    (database : option (table user))
  : account_response * option (table user) :=
  match given username with
  | None => (UsernameRequired400, database)
  | Some name =>
      match database with
      | None => (AccountError500, None)
      | Some t =>
          match select_user name t with
          | Some _ => (UsernameExists409, Some t)
          | None =>
              let (user_id, t') := insert id (fun i => mk_user i name) t in
              (Account user_id name, Some t')
          end
      end
  end.

Definition login_user (username : option string)
    (database : option (table user))
  : account_response * option (table user) :=
  match given username with
  | None => (UsernameRequired400, database)
  | Some name =>
      match database with
      | None => (AccountError500, None)
      | Some t =>
          match select_user name t with
          | None =>
              let (user_id, t') := insert id (fun i => mk_user i name) t in
              (Account user_id name, Some t')
          | Some user => (Account (id user) name, Some t)
          end
      end
  end.

(** A request to one of the two endpoints. *)
Inductive account_request : Type :=
| Register (username : option string)
| Login (username : option string).

Definition serve (database : option (table user)) (req : account_request)
  : option (table user) :=
  match req with
  | Register username => snd (register_user username database)
  | Login username => snd (login_user username database)
  end.

(** The user names of a table are distinct. *)
Definition unique_names (t : table user) : Prop :=
  NoDup (map username (rows t)).

End Accounts.

(** ** Quiz attempts *)

Module Attempts.

Import PyStr Sqlite.
Local Open Scope Z_scope.


(** [(row['score'] / row['total_questions']) * 100]: the quotient of the
    two integers is rounded to a [float], and so is its product with
    100. *)
Definition percentage (score total_questions : Z) : Binary64.float :=
  Binary64.mul (Binary64.true_divide score total_questions)
    (Binary64.of_int 100).







End Attempts.

(** ** Custom quizzes *)

Module CustomQuizzes.

Import PyStr Sqlite.
Local Open Scope Z_scope.

(** A row of [custom_quizzes]; [questions] is the JSON text. *)
Record custom_quiz : Type := mk_custom_quiz {
  id : Z;
  user_id : Z;
  title : string;
  description : string;
  questions : string;
  is_public : bool;
  created_at : Z
}.

(** [SELECT ... WHERE id = ?] and [fetchone()]. *)
Definition select_quiz (quiz_id : Z) (t : table custom_quiz)
  : option custom_quiz :=
  find (fun r => id r =? quiz_id) (rows t).

Section Json.

(** The value of the key ['questions']; [dumps] and [loads] are
    [json.dumps] and [json.loads] ([None] when the text is not JSON);
    [truthy] is the truth value of the value in Python. *)
Variable json : Type.
Variable truthy : json -> bool.
Variable dumps : json -> string.
Variable loads : string -> option json.

(** The body of the request of [create_custom_quiz]; [None] is a missing
    key or a null ([new_description] and [new_is_public]: a missing
    key). *)
Record new_quiz : Type := mk_new_quiz {
  new_user_id : option Z;
  new_title : option string;
  new_description : option string;
  new_questions : option json;
  new_is_public : option bool
}.

Inductive create_response : Type :=
| Created (quiz_id : Z)
| MissingFields400
| CreateError500.

(** [create_custom_quiz]; [now] is CURRENT_TIMESTAMP.  The test
    [not all([user_id, title, questions])] refuses a missing or zero
    [user_id], a missing or empty [title] and missing or falsy
    [questions].  The statement raises when [user_id] does not fit an
    INTEGER, and when the row ids are used up: the next id would not
    fit. *)
Definition create_custom_quiz (now : Z) (data : new_quiz)
    (database : option (table custom_quiz))
  : create_response * option (table custom_quiz) :=
  match new_user_id data, new_title data, new_questions data with
  | Some user, Some name, Some qs =>
      if (user =? 0) || is_empty name || negb (truthy qs)
      then (MissingFields400, database)
      else
        match database with
        | None => (CreateError500, None)
        | Some t =>
            if fits user && fits (next_id id t) then
              let (quiz_id, t') :=
                insert id
                  (fun i => mk_custom_quiz i user name
                              (match new_description data with
                               | Some d => d
                               | None => ""%string
                               end)
                              (dumps qs)
                              (match new_is_public data with
                               | Some b => b
                               | None => false
                               end)
                              now)
                  t in
              (Created quiz_id, Some t')
            else (CreateError500, Some t)
        end
  | _, _, _ => (MissingFields400, database)
  end.

(** The dict ['quiz'] of [get_custom_quiz]. *)
Record quiz_details : Type := mk_quiz_details {
  details_id : Z;
  details_user_id : Z;
  details_title : string;
  details_description : string;
  details_questions : json;
  details_is_public : bool
}.

Inductive get_response : Type :=
| Found (quiz : quiz_details)
| NotFound404
| GetError500.

(** [get_custom_quiz]; [quiz_id] is the integer of the path, which Flask
    does not bound: the statement raises OverflowError on one that does not
    fit an INTEGER. *)
Definition get_custom_quiz (quiz_id : Z)
    (database : option (table custom_quiz)) : get_response :=
  match database with
  | None => GetError500
  | Some t =>
      if negb (fits quiz_id) then GetError500
      else
        match select_quiz quiz_id t with
        | None => NotFound404
        | Some quiz =>
            match loads (questions quiz) with
            | Some qs =>
                Found (mk_quiz_details (id quiz) (user_id quiz) (title quiz)
                         (description quiz) qs (is_public quiz))
            | None => GetError500
            end
        end
  end.

End Json.

Arguments mk_new_quiz {json} new_user_id new_title new_description
  new_questions new_is_public.
Arguments new_user_id {json} n.
Arguments new_title {json} n.
Arguments new_description {json} n.
Arguments new_questions {json} n.
Arguments new_is_public {json} n.
Arguments create_custom_quiz {json} truthy dumps now data database.
Arguments mk_quiz_details {json} details_id details_user_id details_title
  details_description details_questions details_is_public.
Arguments Found {json} quiz.
Arguments NotFound404 {json}.
Arguments GetError500 {json}.
Arguments get_custom_quiz {json} loads quiz_id database.

Inductive delete_response : Type :=
| Deleted
| DeleteNotFound404
| DeleteError500.

(** [delete_custom_quiz]; the first statement raises OverflowError on a
    [quiz_id] that does not fit an INTEGER. *)
Definition delete_custom_quiz (quiz_id : Z)
    (database : option (table custom_quiz))
  : delete_response * option (table custom_quiz) :=
  match database with
  | None => (DeleteError500, None)
  | Some t =>
      if negb (fits quiz_id) then (DeleteError500, Some t)
      else
        match select_quiz quiz_id t with
        | None => (DeleteNotFound404, Some t)
        | Some _ => (Deleted, Some (delete id quiz_id t))
        end
  end.

(** Two quizzes of user 3. *)
Definition two_quizzes : table custom_quiz :=
  mk_table [mk_custom_quiz 1 3 "Capitals" "" "[q1]" true 50;
            mk_custom_quiz 2 3 "Rivers" "" "[q2]" false 60] 2.

(** One dict of ['quizzes'] in [list_custom_quizzes]. *)
Record listed_quiz : Type := mk_listed_quiz {
  listed_id : Z;
  listed_user_id : Z;
  listed_title : string;
  listed_description : string;
  listed_created_at : Z;
  listed_is_public : bool
}.

Definition listed_of (r : custom_quiz) : listed_quiz :=
  mk_listed_quiz (id r) (user_id r) (title r) (description r) (created_at r)
    (is_public r).

(** The WHERE clause of the three queries of [list_custom_quizzes]. *)
Definition listed_where (user : option Z) (include_public : bool)
    (r : custom_quiz) : bool :=
  match user with
  | Some uid =>
      if include_public then (user_id r =? uid) || is_public r
      else user_id r =? uid
  | None => is_public r
  end.

(** [list_custom_quizzes]; [user] is the query argument [user_id], [None]
    when it is missing or empty; [include_public] is the query argument
    compared with ['true'].  The result [None] is the 500 of the [except]
    clause. *)
Definition list_custom_quizzes (user : option Z) (include_public : bool)
    (database : option (table custom_quiz)) : option (list listed_quiz) :=
  match database with
  | None => None
  | Some t =>
      Some (map listed_of
              (order_by_desc created_at
                 (filter (listed_where user include_public) (rows t))))
  end.

End CustomQuizzes.

(** ** The schedule operation *)

Module ScheduleEndpoint.

Import PyStr Schedule Quiz.
Local Open Scope string_scope.

(** The parts of the request that [generate_schedule_endpoint] reads.
    [parameters] is the outcome of [int(...)] and [float(...)] on the form
    fields ['duration_days'] and ['hours_per_day'] (with their defaults 14
    and 2): [None] when one of them raises ValueError. *)
Record schedule_request (hours : Type) : Type := mk_schedule_request {
  has_file : bool;
  parameters : option (Z * hours);
  filename : string
}.
Arguments mk_schedule_request {hours} has_file parameters filename.
Arguments has_file {hours} s.
Arguments parameters {hours} s.
Arguments filename {hours} s.

(** The schedule with the status 200, or an error with its status. *)
Inductive schedule_response (hours : Type) : Type :=
| ScheduleOk (schedule : list day_entry) (file_name : string)
    (duration_days : Z) (hours_per_day : hours)
| ScheduleError (status : Z) (message : string).
Arguments ScheduleOk {hours} schedule file_name duration_days hours_per_day.
Arguments ScheduleError {hours} status message.

Section Operation.

Variable hours : Type.
Variable format_hours : hours -> string.
Variable create_completion : Z -> hours -> string -> completion.

(** [extract_text_from_pdf(file)]: external, it may raise. *)
Variable extract_text_from_pdf : result string.

Definition generate_schedule_endpoint (req : schedule_request hours)
  : schedule_response hours :=
  if negb (has_file req) then ScheduleError 400 "No file provided"
  else
    match parameters req with
    | None =>
        ScheduleError 400
          "Invalid parameters. Please provide valid numbers for duration and hours."
    | Some (duration_days, hours_per_day) =>
        if is_empty (filename req) then ScheduleError 400 "No file selected"
        else
          match extract_text_from_pdf with
          | Raise e =>
              ScheduleError 500
                ("An error occurred: " ++ Endpoint.exn_message e)
          | Ok pdf_text =>
              if is_empty (strip pdf_text)
              then ScheduleError 400 "Could not extract text from the PDF file"
              else
                ScheduleOk
                  (generate_study_schedule_from_pdf format_hours
                     create_completion pdf_text duration_days hours_per_day)
                  (filename req) duration_days hours_per_day
          end
    end.

End Operation.

Arguments generate_schedule_endpoint {hours} format_hours create_completion
  extract_text_from_pdf req.

End ScheduleEndpoint.

(** * Properties *)

(** ** Facts about the string methods *)

Module PyStrFacts.

Import PyStr.
Local Open Scope string_scope.

Lemma rstrip_cons_nonspace (c : ascii) (s : string) :
  is_space c = false -> rstrip (String c s) = String c (rstrip s).
Proof.
  intros Hc. simpl. rewrite Hc. now destruct (rstrip s).
Qed.

Lemma rstrip_cons_space (c : ascii) (s : string) :
  is_space c = true ->
  rstrip (String c s) = match rstrip s with "" => "" | r => String c r end.
Proof.
  intros Hc. simpl. now rewrite Hc.
Qed.


Lemma rstrip_idem (s : string) : rstrip (rstrip s) = rstrip s.
Proof.
  induction s as [|c s IH]; [reflexivity|].
  destruct (is_space c) eqn:Hc.
  - rewrite (rstrip_cons_space c s Hc).
    destruct (rstrip s) as [|d r] eqn:E; [reflexivity|].
    rewrite (rstrip_cons_space c (String d r) Hc), IH. reflexivity.
  - rewrite (rstrip_cons_nonspace c s Hc), (rstrip_cons_nonspace c _ Hc), IH.
    reflexivity.
Qed.

Lemma lstrip_idem (s : string) : lstrip (lstrip s) = lstrip s.
Proof.
  induction s as [|c s IH]; [reflexivity|].
  simpl. destruct (is_space c) eqn:Hc; [assumption|].
  simpl. now rewrite Hc.
Qed.

Lemma lstrip_rstrip (s : string) : lstrip (rstrip s) = rstrip (lstrip s).
Proof.
  induction s as [|c s IH]; [reflexivity|].
  destruct (is_space c) eqn:Hc.
  - rewrite (rstrip_cons_space c s Hc). simpl lstrip at 2. rewrite Hc, <- IH.
    destruct (rstrip s); [reflexivity|]. simpl. now rewrite Hc.
  - rewrite (rstrip_cons_nonspace c s Hc). simpl. rewrite Hc.
    now rewrite (rstrip_cons_nonspace c s Hc).
Qed.

Lemma strip_idem (s : string) : strip (strip s) = strip s.
Proof.
  unfold strip.
  now rewrite lstrip_rstrip, lstrip_idem, rstrip_idem.
Qed.



Lemma strip_cons_nonspace (c : ascii) (s : string) :
  is_space c = false -> strip (String c s) = String c (rstrip s).
Proof.
  intros Hc. unfold strip. simpl lstrip. rewrite Hc.
  now apply rstrip_cons_nonspace.
Qed.

Lemma startswith_app (s t p : string) :
  startswith s p = true -> startswith (s ++ t) p = true.
Proof.
  revert s. induction p as [|a p IH]; intros s H; [reflexivity|].
  destruct s as [|b s]; [discriminate|].
  simpl in *. apply andb_true_iff in H as [Hab Hp].
  now rewrite Hab, (IH s Hp).
Qed.

Lemma startswith_self (p s : string) : startswith (p ++ s) p = true.
Proof.
  induction p as [|a p IH]; [reflexivity|].
  simpl. now rewrite Ascii.eqb_refl, IH.
Qed.

Lemma contains_empty (s : string) : contains s "" = true.
Proof. now destruct s. Qed.

Lemma contains_cons (c : ascii) (s sub : string) :
  contains s sub = true -> contains (String c s) sub = true.
Proof.
  intros H. simpl. rewrite H. apply orb_true_r.
Qed.


(** What a suffix contains, the whole string contains. *)
Lemma contains_app_r (pre s sub : string) :
  contains s sub = true -> contains (pre ++ s) sub = true.
Proof.
  intros H. induction pre as [|c pre IH]; [exact H|].
  simpl append. now apply contains_cons.
Qed.

(** What a prefix contains, the whole string contains. *)
Lemma contains_app_l (s t sub : string) :
  contains s sub = true -> contains (s ++ t) sub = true.
Proof.
  induction s as [|c s IH]; intros H.
  - destruct sub; [apply contains_empty | discriminate].
  - simpl in H. apply orb_true_iff in H as [H|H].
    + simpl append.
      change (startswith (String c (s ++ t)) sub
              || contains (s ++ t) sub = true).
      change (String c (s ++ t)) with (String c s ++ t).
      now rewrite (startswith_app _ t _ H).
    + simpl append. apply contains_cons. now apply IH.
Qed.

Lemma rstrip_prefix (s : string) : exists t, s = rstrip s ++ t.
Proof.
  induction s as [|c s [t IH]]; [now exists ""|].
  simpl. destruct (rstrip s) as [|d r] eqn:E.
  - destruct (is_space c).
    + now exists (String c s).
    + exists s. reflexivity.
  - exists t. change (String c s = String c (String d r ++ t)).
    now f_equal.
Qed.

Lemma lstrip_suffix (s : string) : exists pre, s = pre ++ lstrip s.
Proof.
  induction s as [|c s [pre IH]]; [now exists ""|].
  simpl. destruct (is_space c).
  - exists (String c pre). simpl. now rewrite <- IH.
  - now exists "".
Qed.

Lemma contains_strip (s sub : string) :
  contains (strip s) sub = true -> contains s sub = true.
Proof.
  unfold strip. intros H.
  destruct (rstrip_prefix (lstrip s)) as [t Ht].
  destruct (lstrip_suffix s) as [pre Hpre].
  rewrite Hpre. apply contains_app_r. rewrite Ht. now apply contains_app_l.
Qed.

(** *** Facts about [split] *)


Lemma split_from_nonempty (sep : string) (skip : nat) (s : string) :
  split_from sep skip s <> [].
Proof.
  revert skip. induction s as [|c s IH]; intros skip; [discriminate|].
  simpl. destruct skip as [|k]; [|apply IH].
  destruct (startswith (String c s) sep); [discriminate|].
  destruct (split_from sep 0 s); discriminate.
Qed.

Lemma split_first_prefix (sep s piece : string) (rest : list string) :
  split_from sep 0 s = piece :: rest -> exists t, s = piece ++ t.
Proof.
  revert piece rest. induction s as [|c s IH]; intros piece rest H.
  - injection H as <- _. now exists "".
  - simpl in H. destruct (startswith (String c s) sep).
    + injection H as <- _. now exists (String c s).
    + destruct (split_from sep 0 s) as [|p r] eqn:E.
      * injection H as <- _. exists s. reflexivity.
      * injection H as <- _. destruct (IH p r eq_refl) as [t Ht].
        exists t. simpl. now rewrite <- Ht.
Qed.

(** Every piece of a split is a part of the string. *)
Lemma contains_split_piece (sep sub : string) (s : string) :
  forall (skip : nat) (piece : string),
    In piece (split_from sep skip s) ->
    contains piece sub = true -> contains s sub = true.
Proof.
  induction s as [|c s IH]; intros skip piece Hin Hsub.
  - destruct Hin as [<-|[]]. exact Hsub.
  - simpl in Hin. destruct skip as [|k].
    + destruct (startswith (String c s) sep) eqn:Hsep.
      * destruct Hin as [<-|Hin].
        -- destruct sub; [apply contains_empty | discriminate].
        -- apply contains_cons. exact (IH _ piece Hin Hsub).
      * destruct (split_from sep 0 s) as [|p r] eqn:E.
        -- now destruct (split_from_nonempty sep 0 s).
        -- destruct Hin as [<-|Hin].
           ++ destruct (split_first_prefix sep s p r E) as [t Ht].
              rewrite Ht. change (String c (p ++ t)) with (String c p ++ t).
              now apply contains_app_l.
           ++ apply contains_cons. apply (IH 0%nat piece); [|exact Hsub].
              rewrite E. now right.
    + apply contains_cons. exact (IH k piece Hin Hsub).
Qed.

(** A string that contains the separator splits into two pieces at least. *)
Lemma split_contains (sep s : string) :
  sep <> "" -> contains s sep = true ->
  exists a b rest, split_from sep 0 s = a :: b :: rest.
Proof.
  intros Hsep. induction s as [|c s IH]; intros H.
  - destruct sep; [congruence | discriminate].
  - simpl. destruct (startswith (String c s) sep) eqn:E.
    + destruct (split_from sep (String.length sep - 1) s) as [|b rest] eqn:E'.
      * now destruct (split_from_nonempty sep (String.length sep - 1) s).
      * now exists "", b, rest.
    + simpl in H. rewrite E in H. simpl in H.
      destruct (IH H) as (a & b & rest & ->).
      now exists (String c a), b, rest.
Qed.


(** *** Lines *)



End PyStrFacts.

(** ** The schedule extractor and its fallback *)

Module ScheduleFacts.

Import PyStr PyStrFacts Schedule.
Local Open Scope string_scope.

Lemma flush_emitted (P : day_entry -> Prop) (st : state) :
  (forall d, has_topics d = true -> P d) ->
  Forall P (fst st) -> Forall P (flush st).
Proof.
  intros HP Hst. destruct st as [schedule current_day]. simpl in *.
  destruct (truthy current_day && has_topics current_day) eqn:E; [|exact Hst].
  apply andb_true_iff in E as [_ E].
  apply Forall_app. split; [exact Hst|]. constructor; [now apply HP | constructor].
Qed.

(** A step leaves [schedule] as it is or flushes [current_day] into it. *)
Lemma step_schedule (st : state) (raw : string) :
  fst (step st raw) = fst st \/ fst (step st raw) = flush st.
Proof.
  unfold step. destruct st as [schedule current_day].
  destruct (is_empty (strip raw)); [now left|].
  destruct (startswith (strip raw) "Day "); [now right|].
  repeat match goal with
         | |- context [if ?b then _ else _] => destruct b
         end; now left.
Qed.

Lemma fold_step_emitted (P : day_entry -> Prop) (lines : list string) :
  (forall d, has_topics d = true -> P d) ->
  forall st, Forall P (fst st) -> Forall P (fst (fold_left step lines st)).
Proof.
  intros HP. induction lines as [|raw lines IH]; intros st Hst; [exact Hst|].
  simpl. apply IH.
  destruct (step_schedule st raw) as [-> | ->];
    [exact Hst | now apply flush_emitted].
Qed.

Lemma parse_lines_emitted (lines : list string) :
  Forall (fun d => exists t, topics d = Some t) (parse_lines lines).
Proof.
  assert (HP : forall d, has_topics d = true -> exists t, topics d = Some t).
  { intros d. unfold has_topics. destruct (topics d) as [t|]; [|discriminate].
    intros _. now exists t. }
  unfold parse_lines. apply flush_emitted; [exact HP|].
  apply fold_step_emitted; [exact HP | constructor].
Qed.

Lemma startswith_nonempty (s p : string) :
  p <> "" -> startswith s p = true -> is_empty s = false.
Proof.
  intros Hp H. destruct s; [|reflexivity].
  destruct p; [congruence | discriminate].
Qed.

(** A day header flushes the current day and opens a day that has a
    label only. *)
Lemma step_day_header (st : state) (raw : string) :
  is_day_header raw = true ->
  step st raw
  = (flush st, mk_day (Some (strip (before_colon (strip raw)))) None None None).
Proof.
  unfold is_day_header, step. intros H.
  rewrite (startswith_nonempty (strip raw) "Day "), H by (discriminate || exact H).
  now destruct st.
Qed.

(** A line that is neither a header nor a topics line leaves [schedule]
    and the topics of the current day as they are. *)
Lemma step_other (schedule : list day_entry) (d : day_entry) (raw : string) :
  is_day_header raw = false -> is_topics_line raw = false ->
  exists d', step (schedule, d) raw = (schedule, d') /\ topics d' = topics d.
Proof.
  unfold is_day_header, is_topics_line, step. intros Hh Ht.
  apply orb_false_iff in Ht as [Ht1 Ht2].
  rewrite Hh, Ht1, Ht2. simpl.
  destruct (is_empty (strip raw)); [now exists d|].
  repeat match goal with
         | |- context [if ?b then _ else _] => destruct b
         end; eexists; split; reflexivity.
Qed.

Lemma fold_step_other (body : list string) :
  Forall (fun raw => is_day_header raw = false /\ is_topics_line raw = false)
         body ->
  forall (schedule : list day_entry) (d : day_entry),
  exists d', fold_left step body (schedule, d) = (schedule, d')
             /\ topics d' = topics d.
Proof.
  induction 1 as [|raw body [Hh Ht] _ IH]; intros schedule d.
  - now exists d.
  - destruct (step_other schedule d raw Hh Ht) as (d1 & E1 & T1).
    destruct (IH schedule d1) as (d2 & E2 & T2).
    exists d2. simpl. rewrite E1, E2. split; congruence.
Qed.

(** A current day without topics is not flushed. *)
Lemma flush_no_topics (schedule : list day_entry) (d : day_entry) :
  topics d = None -> flush (schedule, d) = schedule.
Proof.
  intros H. unfold flush, has_topics. rewrite H. now rewrite andb_false_r.
Qed.

(** A day whose header is followed by no topics line leaves no trace. *)
Lemma parse_lines_skip_day (pre : list string) (header : string)
    (body rest : list string) :
  is_day_header header = true ->
  Forall (fun raw => is_day_header raw = false /\ is_topics_line raw = false)
         body ->
  rest = [] \/ (exists next rest', rest = next :: rest'
                                   /\ is_day_header next = true) ->
  parse_lines (pre ++ header :: body ++ rest) = parse_lines (pre ++ rest).
Proof.
  intros Hh Hbody Hrest. unfold parse_lines.
  rewrite !fold_left_app. simpl fold_left.
  set (st := fold_left step pre ([], empty_day)).
  rewrite (step_day_header st header Hh), fold_left_app.
  destruct (fold_step_other body Hbody (flush st)
              (mk_day (Some (strip (before_colon (strip header)))) None None None))
    as (d' & -> & Hd').
  simpl in Hd'.
  destruct Hrest as [-> | (next & rest' & -> & Hn)].
  - simpl. now apply flush_no_topics.
  - simpl fold_left.
    rewrite (step_day_header (flush st, d') next Hn),
            (step_day_header st next Hn).
    now rewrite (flush_no_topics (flush st) d' Hd').
Qed.

Lemma py_range_length (lo hi : Z) :
  List.length (py_range lo hi) = Z.to_nat (hi - lo).
Proof.
  unfold py_range. now rewrite length_map, length_seq.
Qed.

Lemma py_range_nth (lo hi : Z) (k : nat) :
  (k < Z.to_nat (hi - lo))%nat ->
  nth_error (py_range lo hi) k = Some (lo + Z.of_nat k)%Z.
Proof.
  intros Hk. unfold py_range.
  rewrite nth_error_map, nth_error_seq.
  destruct (Nat.ltb_spec k (Z.to_nat (hi - lo))); [reflexivity | lia].
Qed.

(** *** Claims on the schedule extractor *)

(** C2, as stated, fails: the record of a day whose topics line is empty
    is emitted, with an empty topics field. *)
Lemma schedule_emits_empty_topics :
  parse_schedule header_with_empty_topics
  = [mk_day (Some "Day 1") (Some "") None None].
Proof. vm_compute. reflexivity. Qed.

(** A dashed topics line met before any header opens a record of its own,
    which has no label ([a or b and c] in the tests of the loop). *)
Example schedule_dashed_topics_without_header :
  parse_schedule "- Topics: intro" = [mk_day None (Some "intro") None None].
Proof. vm_compute. reflexivity. Qed.

(** C2, amended: every record the schedule extractor emits has a topics
    field, set by a topics line (its value may be empty); and a day whose
    header is followed by no topics line before the next header or the end
    of the text is not emitted: the output is the one of the text without
    that day. *)
Theorem schedule_emits_only_days_with_topics :
  (forall text : string,
      Forall (fun d => exists t, topics d = Some t) (parse_schedule text))
  /\ (forall (pre : list string) (header : string) (body rest : list string),
         is_day_header header = true ->
         Forall (fun raw => is_day_header raw = false
                            /\ is_topics_line raw = false) body ->
         rest = [] \/ (exists next rest', rest = next :: rest'
                                          /\ is_day_header next = true) ->
         parse_lines (pre ++ header :: body ++ rest) = parse_lines (pre ++ rest)).
Proof.
  split.
  - intros text. apply parse_lines_emitted.
  - apply parse_lines_skip_day.
Qed.

Lemma schedule_emits_only_days_with_topics_witness :
  Forall (fun d => exists t, topics d = Some t)
         (parse_schedule header_with_empty_topics)
  /\ parse_lines (["Day 1:"; "- Topics: intro"]
                  ++ "Day 2:" :: ["- Activities: read"] ++ ["Day 3:"; "Topics: end"])
     = parse_lines (["Day 1:"; "- Topics: intro"] ++ ["Day 3:"; "Topics: end"]).
Proof.
  split.
  - exact (proj1 schedule_emits_only_days_with_topics header_with_empty_topics).
  - apply (proj2 schedule_emits_only_days_with_topics).
    + reflexivity.
    + repeat constructor.
    + right. exists "Day 3:", ["Topics: end"]. split; reflexivity.
Defined.

(** C8: the example text parses to two day records, and the second one
    carries no activities and no duration (the keys are absent). *)
Theorem schedule_two_day_example :
  parse_schedule two_day_text
  = [mk_day (Some "Day 1") (Some "intro") (Some "read") (Some "1 hour");
     mk_day (Some "Day 2") (Some "advanced") None None].
Proof. vm_compute. reflexivity. Qed.

(** *** Claims on the fallback *)

(** C5, as stated, fails: the duration of a fallback record is the
    rendering of the hours followed by [" hours"], not the value supplied,
    and a negative number of days gives no record. *)
Lemma fallback_duration_is_not_the_value :
  map duration
      (generate_study_schedule_from_pdf (fun h : string => h)
         (fun _ _ _ => Failed) "notes" 2 "2.0")
  = [Some "2.0 hours"; Some "2.0 hours"]
  /\ Some "2.0 hours" <> Some "2.0"
  /\ generate_study_schedule_from_pdf (fun h : string => h)
       (fun _ _ _ => Failed) "notes" (-1) "2.0" = [].
Proof.
  split; [vm_compute; reflexivity|]. split; [discriminate|].
  vm_compute. reflexivity.
Qed.

(** C5, amended: when the completion call fails, or the extractor yields
    no day record, the operation returns the fallback schedule: one record
    per requested day, [days] records for [days >= 0] (none for a negative
    [days]); record [k] is labelled ["Day k"], has the topic
    ["Study session k: Review PDF materials"], the fixed activity list, and
    as duration the rendering of the hours-per-day value followed by
    [" hours"]. *)
Theorem fallback_schedule_shape
    (hours : Type) (format_hours : hours -> string)
    (create_completion : Z -> hours -> string -> completion)
    (pdf_text : string) (days : Z) (hours_per_day : hours) :
  create_completion days hours_per_day (substring 0 (Z.to_nat 8000) pdf_text)
    = Failed
  \/ (exists text,
         create_completion days hours_per_day
           (substring 0 (Z.to_nat 8000) pdf_text) = Generated text
         /\ parse_schedule text = []) ->
  let result :=
    generate_study_schedule_from_pdf format_hours create_completion
      pdf_text days hours_per_day in
  result = generate_fallback_schedule format_hours days hours_per_day
  /\ List.length result = Z.to_nat days
  /\ forall k : nat,
       (k < Z.to_nat days)%nat ->
       nth_error result k
       = Some (mk_day
                 (Some ("Day " ++ str_of_int (1 + Z.of_nat k)))
                 (Some ("Study session " ++ str_of_int (1 + Z.of_nat k)
                        ++ ": Review PDF materials"))
                 (Some "Read chapters, take notes, review key concepts")
                 (Some (format_hours hours_per_day ++ " hours"))).
Proof.
  intros Hfail result.
  assert (E : result
              = generate_fallback_schedule format_hours days hours_per_day).
  { unfold result, generate_study_schedule_from_pdf.
    destruct Hfail as [-> | (text & -> & ->)]; reflexivity. }
  rewrite E. unfold generate_fallback_schedule.
  assert (L : Z.to_nat (days + 1 - 1) = Z.to_nat days) by (f_equal; lia).
  split; [reflexivity|]. split.
  - now rewrite length_map, py_range_length.
  - intros k Hk. rewrite nth_error_map, py_range_nth by (rewrite L; exact Hk).
    reflexivity.
Qed.

Lemma fallback_schedule_shape_witness :
  generate_study_schedule_from_pdf (fun h : string => h)
    (fun _ _ text => Generated text) "Day 1: nothing to see" 2 "1.5"
  = [mk_day (Some "Day 1") (Some "Study session 1: Review PDF materials")
       (Some "Read chapters, take notes, review key concepts")
       (Some "1.5 hours");
     mk_day (Some "Day 2") (Some "Study session 2: Review PDF materials")
       (Some "Read chapters, take notes, review key concepts")
       (Some "1.5 hours")].
Proof.
  refine (proj1 (fallback_schedule_shape string (fun h : string => h)
                   (fun _ _ text => Generated text)
                   "Day 1: nothing to see" 2 "1.5" _)).
  right. exists "Day 1: nothing to see". split; reflexivity.
Defined.

End ScheduleFacts.

(** ** The quiz extractor *)

Module QuizFacts.

Import PyStr PyStrFacts Quiz.
Local Open Scope string_scope.

(** *** The loop never raises *)

Lemma complete_truthy (q : question_entry) : complete q -> truthy q = true.
Proof.
  intros ((p & Hp) & _). destruct q as [[?|] ? ? ?]; [reflexivity|discriminate].
Qed.

Lemma flush_cases (st : state) :
  flush st = fst st
  \/ (flush st = (fst st ++ [snd st])%list
      /\ exists p, question (snd st) = Some p).
Proof.
  destruct st as [quiz_data q]. simpl.
  destruct (truthy q && has_question q) eqn:E; [|now left].
  right. split; [reflexivity|].
  apply andb_true_iff in E as [_ E]. unfold has_question in E.
  destruct (question q) as [p|]; [now exists p | discriminate].
Qed.

Lemma flush_complete (st : state) : invariant st -> Forall complete (flush st).
Proof.
  intros [Hout Hcur]. destruct st as [quiz_data q]. simpl in *.
  destruct (truthy q && has_question q) eqn:E; [|exact Hout].
  apply andb_true_iff in E as [E _].
  apply Forall_app. split; [exact Hout|]. constructor; [auto | constructor].
Qed.

(** A question line has a piece after its first [Question:] marker. *)
Lemma question_line_rest (line : string) :
  is_question_line line = true ->
  exists rest, nth_error (split line "Question:") 1 = Some rest.
Proof.
  unfold is_question_line. intros H. apply andb_true_iff in H as [_ H].
  destruct (split_contains "Question:" line) as (a & b & rest & E);
    [discriminate | exact H |].
  exists b. unfold split. now rewrite E.
Qed.

Lemma step_total (st : state) (raw : string) :
  invariant st -> exists st', step st raw = Ok st' /\ invariant st'.
Proof.
  intros Hinv. unfold step.
  destruct (is_empty (strip raw)); [now exists st|].
  destruct st as [quiz_data q].
  destruct (is_question_line (strip raw)) eqn:Hq.
  - destruct (question_line_rest _ Hq) as [rest ->].
    eexists. split; [reflexivity|]. split.
    + now apply flush_complete.
    + intros _. repeat split; eexists; reflexivity.
  - destruct Hinv as [Hout Hcur]. simpl in Hout, Hcur.
    destruct (truthy q) eqn:Ht.
    + destruct (Hcur eq_refl) as ((p & Hp) & (o & Ho) & (e & He)).
      rewrite !andb_true_r, Ho.
      assert (Hset : forall q', question q' = question q ->
                       (exists o', options q' = Some o') ->
                       (exists e', explanation q' = Some e') ->
                       invariant (quiz_data, q')).
      { intros q' Eq Eo Ee. split; [exact Hout|]. intros _. simpl.
        split; [exists p; congruence | now split]. }
      repeat match goal with
             | |- context [if ?b then _ else _] => destruct b
             end;
        (eexists; split; [reflexivity|]);
        apply Hset; simpl; eauto.
    + rewrite !andb_false_r. exists (quiz_data, q). split; [reflexivity|].
      split; [exact Hout | simpl; congruence].
Qed.

Lemma run_total (lines : list string) :
  forall st, invariant st -> exists st', run lines st = Ok st' /\ invariant st'.
Proof.
  induction lines as [|raw lines IH]; intros st Hinv; [now exists st|].
  destruct (step_total st raw Hinv) as (st1 & E1 & Hinv1).
  destruct (IH st1 Hinv1) as (st2 & E2 & Hinv2).
  exists st2. simpl. rewrite E1. now split.
Qed.

Lemma invariant_init : invariant ([], empty_question).
Proof. split; [constructor | discriminate]. Qed.

(** The extractor returns, and what it returns is complete. *)
Lemma extract_lines_total (lines : list string) :
  exists recs, extract_lines lines = Ok recs /\ Forall complete recs.
Proof.
  destruct (run_total lines _ invariant_init) as (st & E & Hinv).
  exists (flush st). unfold extract_lines. rewrite E. split; [reflexivity|].
  now apply flush_complete.
Qed.

(** *** Texts without question lines *)

Lemma step_idle (quiz_data : list question_entry) (raw : string) :
  starts_question raw = false ->
  step (quiz_data, empty_question) raw = Ok (quiz_data, empty_question).
Proof.
  unfold starts_question, step. intros ->. simpl.
  rewrite !andb_false_r. now destruct (is_empty (strip raw)).
Qed.

Lemma run_idle (lines : list string) (quiz_data : list question_entry) :
  Forall (fun raw => starts_question raw = false) lines ->
  run lines (quiz_data, empty_question) = Ok (quiz_data, empty_question).
Proof.
  induction 1 as [|raw lines Hraw _ IH]; [reflexivity|].
  simpl. now rewrite (step_idle quiz_data raw Hraw).
Qed.

(** A text without the marker has no question line. *)
Lemma no_marker_no_question_line (text : string) :
  contains text "Question:" = false ->
  Forall (fun raw => starts_question raw = false) (split text nl).
Proof.
  intros H. apply Forall_forall. intros raw Hin.
  unfold starts_question, is_question_line.
  destruct (contains (strip raw) "Question:") eqn:E; [|apply andb_false_r].
  apply contains_strip in E.
  rewrite (contains_split_piece nl "Question:" text 0 raw Hin E) in H.
  discriminate.
Qed.

(** *** Question blocks *)

Lemma last_cons_default {A : Type} (a d : A) (l : list A) :
  last (a :: l) d = last l a.
Proof.
  revert a d. induction l as [|b l IH]; intros a d; [reflexivity|].
  change (last (a :: b :: l) d) with (last (b :: l) d).
  now rewrite (IH b d), (IH b a).
Qed.

Lemma last_app_default {A : Type} (l1 l2 : list A) (d : A) :
  last (l1 ++ l2) d = last l2 (last l1 d).
Proof.
  revert d. induction l1 as [|a l1 IH]; intros d; [reflexivity|].
  simpl app. now rewrite !last_cons_default, IH.
Qed.

Lemma last_map {A B : Type} (f : A -> B) (l : list A) (d : A) :
  last (map f l) (f d) = f (last l d).
Proof.
  revert d. induction l as [|a l IH]; intros d; [reflexivity|].
  simpl map. now rewrite !last_cons_default, IH.
Qed.

(** The markers of the loop body exclude each other. *)
Lemma option_marker_exclusive (line : string) :
  startswith_any line option_markers = true ->
  startswith line "Correct Answer:" = false
  /\ startswith line "Explanation:" = false.
Proof.
  destruct line as [|c1 [|c2 line]]; [discriminate | |].
  - cbn -[Ascii.eqb]. now rewrite !andb_false_r.
  - unfold startswith_any, option_markers. cbn -[Ascii.eqb].
    destruct (Ascii.eqb ")" c2) eqn:E2.
    + apply Ascii.eqb_eq in E2. subst c2. intros _.
      change (Ascii.eqb "o" ")") with false.
      change (Ascii.eqb "x" ")") with false.
      now rewrite !andb_false_r.
    + cbn -[Ascii.eqb]. rewrite !andb_false_r. discriminate.
Qed.

Lemma answer_marker_exclusive (line : string) :
  startswith line "Correct Answer:" = true ->
  startswith line "Explanation:" = false.
Proof.
  destruct line as [|c1 line]; [discriminate|]. cbn -[Ascii.eqb].
  destruct (Ascii.eqb "C" c1) eqn:E1; [|discriminate].
  apply Ascii.eqb_eq in E1. subst c1. reflexivity.
Qed.

Lemma question_line_nonempty (line : string) :
  is_question_line line = true -> is_empty line = false.
Proof. destruct line; [discriminate | reflexivity]. Qed.

(** A question line flushes the record in progress and opens a record. *)
Lemma step_question_line (st : state) (raw : string) :
  starts_question raw = true ->
  step st raw = Ok (flush st, new_question (prompt_of raw)).
Proof.
  unfold starts_question, step, prompt_of. intros H.
  rewrite (question_line_nonempty _ H), H.
  destruct (question_line_rest _ H) as [rest ->]. now destruct st.
Qed.

Lemma absorb_nil (q : question_entry) :
  (exists o, options q = Some o) -> absorb q [] = q.
Proof.
  intros [o Ho]. destruct q as [p o' a e]. simpl in Ho. subst o'.
  unfold absorb. simpl. now rewrite app_nil_r.
Qed.

Lemma absorb_app (q : question_entry) (b1 b2 : list string) :
  absorb q (b1 ++ b2) = absorb (absorb q b1) b2.
Proof.
  unfold absorb. simpl.
  rewrite !filter_app, !map_app, !last_app_default.
  destruct (options q); [now rewrite app_assoc | reflexivity].
Qed.

Lemma last_some {A : Type} (l : list A) (d : option A) :
  (exists x, d = Some x) -> exists x, last (map Some l) d = Some x.
Proof.
  revert d. induction l as [|a l IH]; intros d Hd; [exact Hd|].
  simpl map. rewrite last_cons_default. apply IH. now exists a.
Qed.

Lemma absorb_complete (q : question_entry) (body : list string) :
  complete q -> complete (absorb q body).
Proof.
  intros (Hp & (o & Ho) & He). unfold absorb. repeat split; simpl.
  - exact Hp.
  - rewrite Ho. eexists; reflexivity.
  - rewrite <- (map_map explanation_of Some). now apply last_some.
Qed.

(** A line that is not a question line, met with a record in progress. *)
Lemma step_body (quiz_data : list question_entry) (q : question_entry)
    (raw : string) :
  starts_question raw = false -> complete q ->
  step (quiz_data, q) raw = Ok (quiz_data, absorb q [raw]).
Proof.
  intros Hs Hq. pose proof (complete_truthy q Hq) as Ht.
  destruct Hq as (_ & (o & Ho) & _).
  unfold starts_question in Hs. unfold step. rewrite Hs, Ht, Ho, !andb_true_r.
  unfold absorb, is_option_line, is_answer_line, is_explanation_line,
    answer_of, explanation_of.
  rewrite Ho. cbn [filter].
  destruct (is_empty (strip raw)) eqn:E.
  { destruct (strip raw); [|discriminate]. simpl. rewrite app_nil_r.
    destruct q; simpl in *; now subst. }
  destruct (startswith_any (strip raw) option_markers) eqn:Hopt.
  - destruct (option_marker_exclusive _ Hopt) as [-> ->].
    cbn [map last]. now rewrite strip_idem.
  - destruct (startswith (strip raw) "Correct Answer:") eqn:Hans.
    + rewrite (answer_marker_exclusive _ Hans). cbn [map last app].
      rewrite app_nil_r. unfold set_answer. now rewrite Ho.
    + destruct (startswith (strip raw) "Explanation:"); cbn [map last app];
        rewrite app_nil_r.
      * unfold set_explanation. now rewrite Ho.
      * destruct q; simpl in *; now subst.
Qed.

Lemma run_app (l1 l2 : list string) (st : state) :
  run (l1 ++ l2) st = (st' <- run l1 st ;; run l2 st').
Proof.
  revert st. induction l1 as [|raw l1 IH]; intros st; [reflexivity|].
  simpl. destruct (step st raw); [apply IH | reflexivity].
Qed.

Lemma run_body (body : list string) :
  Forall (fun raw => starts_question raw = false) body ->
  forall (quiz_data : list question_entry) (q : question_entry),
    complete q -> run body (quiz_data, q) = Ok (quiz_data, absorb q body).
Proof.
  induction 1 as [|raw body Hraw _ IH]; intros quiz_data q Hq.
  - simpl. rewrite absorb_nil; [reflexivity | apply Hq].
  - simpl. rewrite (step_body quiz_data q raw Hraw Hq). simpl.
    rewrite IH by now apply absorb_complete.
    now rewrite <- absorb_app.
Qed.

Lemma block_record_absorb (b : block) :
  block_record b = absorb (new_question (prompt_of (fst b))) (snd b).
Proof.
  unfold block_record, absorb. simpl. f_equal.
  rewrite <- (map_map explanation_of Some). apply (eq_sym (last_map _ _ _)).
Qed.

Lemma new_question_complete (p : string) : complete (new_question p).
Proof. repeat split; eexists; reflexivity. Qed.

Lemma flush_complete_record (quiz_data : list question_entry)
    (q : question_entry) :
  complete q -> flush (quiz_data, q) = (quiz_data ++ [q])%list.
Proof.
  intros Hq. simpl. rewrite (complete_truthy q Hq).
  destruct Hq as ((p & Hp) & _). unfold has_question. now rewrite Hp.
Qed.

(** The loop over a sequence of blocks, from a state with a record in
    progress: every block leaves its record. *)
Lemma run_blocks (blocks : list block) :
  Forall well_formed_block blocks ->
  forall (quiz_data : list question_entry) (q : question_entry),
    complete q ->
    exists st,
      run (concat (map block_lines blocks)) (quiz_data, q) = Ok st
      /\ flush st = (quiz_data ++ q :: map block_record blocks)%list.
Proof.
  induction 1 as [|[head body] blocks [Hhead Hbody] _ IH]; intros quiz_data q Hq.
  - exists (quiz_data, q). split; [reflexivity|].
    now apply flush_complete_record.
  - simpl in Hhead, Hbody.
    destruct (IH (quiz_data ++ [q])%list
                 (absorb (new_question (prompt_of head)) body))
      as (st & E & F).
    { apply absorb_complete, new_question_complete. }
    exists st. split.
    + cbn [map concat block_lines fst snd app run].
      rewrite (step_question_line (quiz_data, q) head Hhead).
      cbn [bind]. rewrite run_app, (flush_complete_record quiz_data q Hq).
      rewrite (run_body body Hbody) by apply new_question_complete.
      exact E.
    + rewrite F, <- app_assoc. cbn [map app].
      now rewrite (block_record_absorb (head, body)).
Qed.

(** The extractor on lines that fall into blocks, after a prelude without
    question line: one record per block, in the order of the blocks. *)
Lemma extract_blocks (prelude : list string) (blocks : list block) :
  Forall (fun raw => starts_question raw = false) prelude ->
  Forall well_formed_block blocks ->
  extract_lines (prelude ++ concat (map block_lines blocks))
  = Ok (map block_record blocks).
Proof.
  intros Hpre Hblocks. unfold extract_lines.
  rewrite run_app, (run_idle prelude [] Hpre). cbn [bind].
  destruct blocks as [|[head body] blocks]; [reflexivity|].
  inversion Hblocks as [|? ? [Hhead Hbody] Hrest]; subst.
  simpl in Hhead, Hbody.
  cbn [map concat block_lines fst snd app run].
  rewrite (step_question_line _ head Hhead). cbn [bind flush truthy
    empty_question andb].
  rewrite run_app, (run_body body Hbody) by apply new_question_complete.
  cbn [bind].
  destruct (run_blocks blocks Hrest []
              (absorb (new_question (prompt_of head)) body))
    as (st & -> & F).
  { apply absorb_complete, new_question_complete. }
  cbn [bind]. rewrite F. cbn [app map].
  now rewrite (block_record_absorb (head, body)).
Qed.

(** *** Claims on the quiz extractor *)

(** C4, as stated, fails: a question line with nothing after its marker
    opens a record whose prompt is empty, and the record is emitted. *)
Lemma quiz_emits_empty_prompt :
  quiz_extract "1. Question:"
  = Ok [mk_question (Some "") (Some []) None (Some "")].
Proof. vm_compute. reflexivity. Qed.

(** C4, amended: for every input text the extractor returns, and every
    record it emits has a prompt field (which may be the empty string);
    the flush, at a question line and at the end of the input, emits the
    record in progress only if it has a prompt field. *)
Theorem quiz_emits_only_records_with_prompt :
  (forall text : string,
      exists recs, quiz_extract text = Ok recs
                   /\ Forall (fun r => exists p, question r = Some p) recs)
  /\ (forall st : state,
         flush st = fst st
         \/ (flush st = (fst st ++ [snd st])%list
             /\ exists p, question (snd st) = Some p)).
Proof.
  split.
  - intros text.
    destruct (extract_lines_total (split text nl)) as (recs & E & Hrecs).
    exists recs. split; [exact E|].
    eapply Forall_impl; [|exact Hrecs]. intros r Hr. apply Hr.
  - apply flush_cases.
Qed.

(** C9: a text without [Question:] marker yields zero records, and the
    parse ends normally. *)
Theorem quiz_without_marker_is_empty (text : string) :
  contains text "Question:" = false -> quiz_extract text = Ok [].
Proof.
  intros H. unfold quiz_extract, extract_lines.
  now rewrite (run_idle _ [] (no_marker_no_question_line text H)).
Qed.

Lemma quiz_without_marker_is_empty_witness :
  quiz_extract ("A) stray option" ++ nl ++ "Correct Answer: B" ++ nl
                ++ "Explanation: none" ++ nl ++ "11. What?") = Ok [].
Proof.
  apply (quiz_without_marker_is_empty
           ("A) stray option" ++ nl ++ "Correct Answer: B" ++ nl
            ++ "Explanation: none" ++ nl ++ "11. What?")).
  vm_compute. reflexivity.
Defined.

Lemma last_some_none {A : Type} (l : list A) :
  last (map Some l) None = None <-> l = [].
Proof.
  split; [|now intros ->].
  destruct l as [|a l]; [reflexivity|]. simpl map.
  rewrite last_cons_default. intros H.
  destruct (last_some l (Some a)) as [x Hx]; [now exists a | congruence].
Qed.

(** C10: every record emitted has its options and its explanation; a
    record may have no answer; on lines that fall into blocks the record of
    a block has the option lines of the block in their order, the value of
    its last answer line and of its last explanation line, and it has an
    answer exactly when the block has an answer line. *)
Theorem quiz_record_fields :
  (forall text : string,
      exists recs,
        quiz_extract text = Ok recs
        /\ Forall (fun r => (exists o, options r = Some o)
                            /\ (exists e, explanation r = Some e)) recs)
  /\ quiz_extract "1. Question: Why?"
     = Ok [mk_question (Some "Why?") (Some []) None (Some "")]
  /\ (forall (prelude : list string) (blocks : list block),
         Forall (fun raw => starts_question raw = false) prelude ->
         Forall well_formed_block blocks ->
         extract_lines (prelude ++ concat (map block_lines blocks))
         = Ok (map block_record blocks))
  /\ (forall b : block,
         answer (block_record b) = None
         <-> filter is_answer_line (snd b) = []).
Proof.
  split; [|split; [|split]].
  - intros text.
    destruct (extract_lines_total (split text nl)) as (recs & E & Hrecs).
    exists recs. split; [exact E|].
    eapply Forall_impl; [|exact Hrecs]. intros r Hr. apply Hr.
  - vm_compute. reflexivity.
  - apply extract_blocks.
  - intros b. unfold block_record. cbn [answer].
    rewrite <- (map_map answer_of Some), last_some_none.
    split; [apply map_eq_nil | now intros ->].
Qed.

Lemma quiz_record_fields_witness :
  extract_lines
    (["Here is your quiz:"]
     ++ concat (map block_lines
                  [("1. Question: Q1",
                    ["A) first"; "Correct Answer: A"; "B) second";
                     "Correct Answer: B"; "Explanation: x";
                     "Explanation: y"]);
                   ("2. Question: Q2", ["A) only"])]))
  = Ok [mk_question (Some "Q1") (Some ["A) first"; "B) second"])
          (Some "B") (Some "y");
        mk_question (Some "Q2") (Some ["A) only"]) None (Some "")].
Proof.
  apply (proj1 (proj2 (proj2 quiz_record_fields)) ["Here is your quiz:"]
           [("1. Question: Q1",
             ["A) first"; "Correct Answer: A"; "B) second";
              "Correct Answer: B"; "Explanation: x"; "Explanation: y"]);
            ("2. Question: Q2", ["A) only"])]).
  - repeat constructor.
  - repeat constructor.
Defined.

End QuizFacts.

(** ** The quiz operation *)

Module EndpointFacts.

Import PyStr Quiz Difficulty Endpoint.
Local Open Scope string_scope.

(** C3, as stated, fails: a generated text without question is answered
    by the ordinary success response, with an empty quiz. *)
Lemma quiz_empty_parse_is_reported_as_success :
  upload_pdf (Ok "text of the document")
    (fun _ _ _ => Ok "I could not write a quiz for this text.")
    (mk_request true "notes.pdf" (Some 5%Z) None false) None
  = Success [] None false.
Proof. vm_compute. reflexivity. Qed.

(** C3, amended: when the text is extracted, the generation succeeds and
    the quiz extractor yields zero records, the quiz operation answers
    with the ordinary success response: an empty quiz, the difficulty and
    the adaptive flag, and no failure signal. *)
Theorem quiz_empty_parse_response
    (extract_text_from_pdf : result string)
    (llm_func1 : string -> Z -> option tier -> result string)
    (req : request) (database : option (list attempt))
    (number : Z) (text quiz_response : string) :
  has_file req = true ->
  num_questions req = Some number ->
  is_empty (filename req) = false ->
  extract_text_from_pdf = Ok text ->
  llm_func1 text number
    (select_difficulty (adaptive req) (form_user_id req) database)
    = Ok quiz_response ->
  quiz_extract quiz_response = Ok [] ->
  upload_pdf extract_text_from_pdf llm_func1 req database
  = Success [] (select_difficulty (adaptive req) (form_user_id req) database)
      (adaptive req).
Proof.
  intros Hfile Hnumber Hname Htext Hllm Hquiz. unfold upload_pdf.
  rewrite Hfile, Hnumber, Hname, Htext. cbn [negb bind].
  rewrite Hllm. cbn [bind]. now rewrite Hquiz.
Qed.

Lemma quiz_empty_parse_response_witness :
  upload_pdf (Ok "text of the document")
    (fun _ _ _ => Ok "I could not write a quiz for this text.")
    (mk_request true "notes.pdf" (Some 5%Z) (Some 7%Z) true) (Some [])
  = Success [] None true.
Proof.
  apply (quiz_empty_parse_response (Ok "text of the document")
           (fun _ _ _ => Ok "I could not write a quiz for this text.")
           (mk_request true "notes.pdf" (Some 5%Z) (Some 7%Z) true) (Some [])
           5%Z "text of the document" "I could not write a quiz for this text.");
    reflexivity.
Defined.

End EndpointFacts.

(** ** The difficulty selector *)

Module DifficultyFacts.

Import Binary64 Difficulty.
Local Open Scope Z_scope.












(** C1, on the code: the query averages all the attempts of the user.  On
    a history whose five most recent attempts are perfect and whose five
    older attempts score zero, the code selects 'medium'; the mean of the
    five most recent attempts selects 'difficult', and so does the code
    once the older attempts are removed. *)
Theorem difficulty_averages_all_attempts :
  select_difficulty true (Some 1%Z) (Some ten_attempts) = Some Medium
  /\ windowed_difficulty ten_attempts 1 = Some Difficult
  /\ select_difficulty true (Some 1%Z)
       (Some (recent_attempts 5 ten_attempts 1)) = Some Difficult.
Proof. repeat split; vm_compute; reflexivity. Qed.

End DifficultyFacts.

(** ** The documented quiz format *)

Module FormatFacts.

Import PyStr PyStrFacts Quiz QuizFacts.
Local Open Scope string_scope.






(** *** The question line *)






(** *** The lines of the body *)












(** *** The blocks of a rendered quiz *)










(** *** The numbers of the markers *)






(** The sample quiz, evaluated. *)
Example sample_quiz_records :
  quiz_extract (render_quiz sample_quiz)
  = Ok [mk_question (Some "What is the capital of France?")
          (Some ["A) Berlin"; "B) Madrid"; "C) Paris"; "D) Rome"])
          (Some "C) Paris")
          (Some "Paris is the capital and largest city of France.");
        mk_question (Some "What is 2 + 2?")
          (Some ["A) 3"; "B) 4"; "C) 5"; "D) 22"; "E) none of these"])
          (Some "B) 4") (Some "Arithmetic.")].
Proof. vm_compute. reflexivity. Qed.

(** A prompt that contains the marker is cut at it: the prompt is the
    piece between the first two markers. *)
Example prompt_with_marker_is_cut :
  quiz_extract "1. Question: Question: what?"
  = Ok [mk_question (Some "") (Some []) None (Some "")].
Proof. vm_compute. reflexivity. Qed.

(** An eleventh question is not recognised: its lines go to the record
    before it. *)
Example marker_eleven_not_recognised :
  quiz_extract ("10. Question: ten" ++ nl ++ "A) a" ++ nl
                ++ "11. Question: eleven" ++ nl ++ "A) b")
  = Ok [mk_question (Some "ten") (Some ["A) a"; "A) b"]) None (Some "")].
Proof. vm_compute. reflexivity. Qed.

End FormatFacts.

(** ** More on the quiz extractor *)

Module QuizMoreFacts.

Import PyStr PyStrFacts Quiz QuizFacts QuizLines.
Local Open Scope string_scope.

Lemma not_truthy_empty (q : question_entry) :
  truthy q = false -> q = empty_question.
Proof. destruct q as [[?|] [?|] [?|] [?|]]; (discriminate || reflexivity). Qed.

Lemma absorb_question (q : question_entry) (body : list string) :
  question (absorb q body) = question q.
Proof. reflexivity. Qed.

(** The prompts of what a state will emit. *)
Lemma step_prompts (st : state) (raw : string) :
  invariant st ->
  exists st',
    step st raw = Ok st' /\ invariant st'
    /\ map question (flush st')
       = (map question (flush st)
          ++ (if starts_question raw then [Some (prompt_of raw)] else []))%list.
Proof.
  intros Hinv. destruct (starts_question raw) eqn:Hs.
  - exists (flush st, new_question (prompt_of raw)).
    split; [now apply step_question_line|]. split.
    + split; [now apply flush_complete | intros _; apply new_question_complete].
    + rewrite (flush_complete_record _ _ (new_question_complete _)).
      now rewrite map_app.
  - destruct st as [quiz_data q]. destruct (truthy q) eqn:Ht.
    + assert (Hq : complete q) by (apply Hinv; exact Ht).
      exists (quiz_data, absorb q [raw]).
      split; [now apply step_body|]. split.
      * split; [apply Hinv | intros _; now apply absorb_complete].
      * rewrite !flush_complete_record, !map_app, app_nil_r;
          [reflexivity | exact Hq | now apply absorb_complete].
    + apply not_truthy_empty in Ht. subst q.
      exists (quiz_data, empty_question).
      split; [now apply step_idle|]. split; [exact Hinv|].
      now rewrite app_nil_r.
Qed.

Lemma run_prompts (lines : list string) :
  forall st,
    invariant st ->
    exists st',
      run lines st = Ok st' /\ invariant st'
      /\ map question (flush st')
         = (map question (flush st)
            ++ map (fun raw => Some (prompt_of raw))
                   (filter starts_question lines))%list.
Proof.
  induction lines as [|raw lines IH]; intros st Hinv.
  - exists st. now rewrite app_nil_r.
  - destruct (step_prompts st raw Hinv) as (st1 & E1 & Hinv1 & P1).
    destruct (IH st1 Hinv1) as (st2 & E2 & Hinv2 & P2).
    exists st2. split; [simpl; now rewrite E1|]. split; [exact Hinv2|].
    rewrite P2, P1, <- app_assoc. f_equal. simpl filter.
    now destruct (starts_question raw).
Qed.

(** X1: for every text the extractor returns one record per question
    line, in the order of the lines, and the prompt of each record is the
    prompt of its question line. *)
Theorem quiz_prompts_in_order (text : string) :
  exists recs,
    quiz_extract text = Ok recs
    /\ map question recs
       = map (fun raw => Some (prompt_of raw))
             (filter starts_question (split text nl))
    /\ List.length recs
       = List.length (filter starts_question (split text nl)).
Proof.
  destruct (run_prompts (split text nl) _ invariant_init) as (st & E & _ & P).
  exists (flush st). unfold quiz_extract, extract_lines. rewrite E.
  simpl in P. split; [reflexivity|]. split; [exact P|].
  now rewrite <- (length_map question (flush st)), P, length_map.
Qed.

(** A line that passes none of the tests changes nothing. *)
Lemma step_unrecognised (st : state) (raw : string) :
  recognised raw = false -> step st raw = Ok st.
Proof.
  unfold recognised, starts_question, is_option_line, is_answer_line,
    is_explanation_line, step.
  destruct (is_empty (strip raw)); [reflexivity|]. simpl. intros H.
  apply orb_false_iff in H as [H He]. apply orb_false_iff in H as [H Ha].
  apply orb_false_iff in H as [Hq Ho].
  rewrite Hq, Ho, Ha, He. now destruct st.
Qed.

Lemma run_recognised (lines : list string) (st : state) :
  run (filter recognised lines) st = run lines st.
Proof.
  revert st. induction lines as [|raw lines IH]; intros st; [reflexivity|].
  simpl. destruct (recognised raw) eqn:E.
  - simpl. destruct (step st raw); [apply IH | reflexivity].
  - rewrite (step_unrecognised st raw E). apply IH.
Qed.

Lemma step_strip (st : state) (raw : string) :
  step st (strip raw) = step st raw.
Proof. unfold step. now rewrite !strip_idem. Qed.

Lemma run_strip (lines : list string) (st : state) :
  run (map strip lines) st = run lines st.
Proof.
  revert st. induction lines as [|raw lines IH]; intros st; [reflexivity|].
  simpl. rewrite step_strip. destruct (step st raw); [apply IH | reflexivity].
Qed.

(** X2: the quiz extractor ignores the lines that are blank or carry none
    of its markers, and the white space around a line: the result is the
    one of the stripped lines that carry a marker. *)
Theorem quiz_ignores_other_lines (lines : list string) :
  extract_lines (map strip (filter recognised lines)) = extract_lines lines.
Proof.
  unfold extract_lines. now rewrite run_strip, run_recognised.
Qed.

End QuizMoreFacts.

(** ** More on the quiz operation *)

Module EndpointMoreFacts.

Import PyStr Quiz QuizFacts Difficulty Endpoint.
Local Open Scope string_scope.

(** X3: the responses of the quiz operation.  Without file the answer is
    a 400.  With a file, a number of questions that [int] refuses leaves
    the function as a ValueError, whatever the file name: the answer is
    the 500 of Flask, without JSON.  With a number that converts, an empty
    file name is answered by a 400; otherwise the answer is a 500 exactly
    when the text extraction or the generation raises, with the message of
    the exception; whatever text the generation returns, the parse does
    not fail the request, and the records of the success response have a
    prompt, options and an explanation. *)
Theorem upload_pdf_responses
    (extract_text_from_pdf : result string)
    (llm_func1 : string -> Z -> option tier -> result string)
    (req : request) (database : option (list attempt)) :
  let difficulty :=
    select_difficulty (adaptive req) (form_user_id req) database in
  let response := upload_pdf extract_text_from_pdf llm_func1 req database in
  (has_file req = false -> response = Error 400 "No file provided")
  /\ (has_file req = true -> num_questions req = None ->
      response = UnhandledValueError500)
  /\ (forall number : Z,
        has_file req = true -> num_questions req = Some number ->
        (is_empty (filename req) = true ->
         response = Error 400 "No file selected")
        /\ (is_empty (filename req) = false ->
            match extract_text_from_pdf with
            | Raise e => response = Error 500 (exn_message e)
            | Ok text =>
                match llm_func1 text number difficulty with
                | Raise e => response = Error 500 (exn_message e)
                | Ok quiz_response =>
                    exists quiz_data,
                      quiz_extract quiz_response = Ok quiz_data
                      /\ response = Success quiz_data difficulty (adaptive req)
                      /\ Forall complete quiz_data
                end
            end)).
Proof.
  intros difficulty response. unfold response, upload_pdf.
  split; [now intros ->|]. split; [now intros -> ->|].
  intros number -> ->. cbn [negb]. split; [now intros ->|].
  intros ->.
  destruct extract_text_from_pdf as [text|e]; [|reflexivity]. cbn [bind].
  fold difficulty.
  destruct (llm_func1 text number difficulty) as [quiz_response|e];
    [|reflexivity].
  cbn [bind].
  destruct (extract_lines_total (split quiz_response nl)) as (recs & E & Hrecs).
  exists recs. unfold quiz_extract. rewrite E. now repeat split.
Qed.

Lemma upload_pdf_responses_witness :
  upload_pdf (Ok "text") (fun _ _ _ => Ok "E) stray")
    (mk_request false "notes.pdf" (Some 5%Z) None false) None
  = Error 400 "No file provided"
  /\ upload_pdf (Ok "text") (fun _ _ _ => Ok "E) stray")
       (mk_request true "" None None false) None
     = UnhandledValueError500
  /\ upload_pdf (Ok "text") (fun _ _ _ => Ok "E) stray")
       (mk_request true "" (Some 5%Z) None false) None
     = Error 400 "No file selected"
  /\ upload_pdf (Raise (ExternalError "EOF marker not found"))
       (fun _ _ _ => Ok "E) stray")
       (mk_request true "notes.pdf" (Some 5%Z) None false) None
     = Error 500 "EOF marker not found".
Proof.
  split; [|split; [|split]].
  - exact (proj1 (upload_pdf_responses (Ok "text") (fun _ _ _ => Ok "E) stray")
                    (mk_request false "notes.pdf" (Some 5%Z) None false) None)
             eq_refl).
  - exact (proj1 (proj2 (upload_pdf_responses (Ok "text")
                           (fun _ _ _ => Ok "E) stray")
                           (mk_request true "" None None false) None))
             eq_refl eq_refl).
  - exact (proj1 (proj2 (proj2 (upload_pdf_responses (Ok "text")
                                  (fun _ _ _ => Ok "E) stray")
                                  (mk_request true "" (Some 5%Z) None false)
                                  None))
                   5%Z eq_refl eq_refl) eq_refl).
  - exact (proj2 (proj2 (proj2 (upload_pdf_responses
                                  (Raise (ExternalError "EOF marker not found"))
                                  (fun _ _ _ => Ok "E) stray")
                                  (mk_request true "notes.pdf" (Some 5%Z) None
                                     false) None))
                   5%Z eq_refl eq_refl) eq_refl).
Defined.

End EndpointMoreFacts.

(** ** More on the schedule extractor *)

Module ScheduleMoreFacts.

Import PyStr PyStrFacts Schedule ScheduleFacts ScheduleLines.
Local Open Scope string_scope.

Lemma day_step_unrecognised (st : state) (raw : string) :
  recognised raw = false -> step st raw = st.
Proof.
  unfold recognised, is_day_header, step.
  destruct (is_empty (strip raw)); [reflexivity|]. cbn [negb andb]. intros H.
  repeat (apply orb_false_iff in H as [H ?]).
  destruct st as [schedule d].
  repeat match goal with
         | E : startswith _ _ = false |- _ => rewrite E; clear E
         end.
  reflexivity.
Qed.

Lemma day_step_strip (st : state) (raw : string) :
  step st (strip raw) = step st raw.
Proof. unfold step. now rewrite !strip_idem. Qed.

(** X4: the schedule extractor ignores the lines that are blank or start
    with none of its markers, and the white space around a line. *)
Theorem schedule_ignores_other_lines (lines : list string) :
  parse_lines (map strip (filter recognised lines)) = parse_lines lines.
Proof.
  unfold parse_lines. f_equal. generalize (@nil day_entry, empty_day).
  induction lines as [|raw lines IH]; intros st; [reflexivity|].
  simpl. destruct (recognised raw) eqn:E.
  - simpl. rewrite day_step_strip. apply IH.
  - rewrite (day_step_unrecognised st raw E). apply IH.
Qed.

(** *** Labels *)

(** The three ways of a step. *)
Lemma step_cases (st : state) (raw : string) :
  step st raw = st
  \/ (is_day_header raw = true
      /\ step st raw = (flush st, mk_day (Some (label_of raw)) None None None))
  \/ (exists d', step st raw = (fst st, d') /\ day d' = day (snd st)).
Proof.
  destruct (is_day_header raw) eqn:Hh.
  - right. left. split; [reflexivity|]. now apply step_day_header.
  - unfold is_day_header in Hh. unfold step. rewrite Hh.
    destruct st as [schedule d].
    destruct (is_empty (strip raw)); [now left|].
    repeat match goal with
           | |- context [if ?b then _ else _] => destruct b
           end;
      (now left) || (right; right; eexists; split; reflexivity).
Qed.

Lemma flush_incl (st : state) (d : day_entry) :
  In d (flush st) -> In d (fst st) \/ d = snd st.
Proof.
  destruct st as [schedule cur]. simpl.
  destruct (truthy cur && has_topics cur); [|now left].
  intros H. apply in_app_or in H as [H | [H | []]]; [now left | now right].
Qed.

Lemma flush_labelled_after_first (st : state) :
  labelled_after_first st ->
  Forall (fun d => has_label d = true) (tl (flush st)).
Proof.
  intros [Htl Hcur]. destruct st as [schedule cur]. simpl in *.
  destruct (truthy cur && has_topics cur); [|exact Htl].
  destruct schedule as [|a schedule]; [constructor|]. simpl in *.
  apply Forall_app. split; [exact Htl|].
  destruct Hcur as [Hcur | Hcur]; [|discriminate].
  now repeat constructor.
Qed.

Lemma step_labelled_after_first (st : state) (raw : string) :
  labelled_after_first st -> labelled_after_first (step st raw).
Proof.
  intros H.
  destruct (step_cases st raw) as [-> | [[_ ->] | (d' & -> & Hd')]].
  - exact H.
  - split; [now apply flush_labelled_after_first | now left].
  - destruct H as [Htl Hcur]. split; [exact Htl|].
    destruct Hcur as [Hcur | Hcur]; [left | now right].
    unfold has_label in *. simpl. now rewrite Hd'.
Qed.

Lemma fold_labelled_after_first (lines : list string) :
  forall st, labelled_after_first st ->
             labelled_after_first (fold_left step lines st).
Proof.
  induction lines as [|raw lines IH]; intros st H; [exact H|].
  simpl. apply IH. now apply step_labelled_after_first.
Qed.

Lemma flush_all_labelled (st : state) :
  all_labelled st -> Forall (fun d => has_label d = true) (flush st).
Proof.
  intros [Hout Hcur]. apply Forall_forall. intros d Hd.
  apply flush_incl in Hd as [Hd | ->]; [|exact Hcur].
  rewrite Forall_forall in Hout. now apply Hout.
Qed.

Lemma step_all_labelled (st : state) (raw : string) :
  all_labelled st -> all_labelled (step st raw).
Proof.
  intros H.
  destruct (step_cases st raw) as [-> | [[_ ->] | (d' & -> & Hd')]].
  - exact H.
  - split; [now apply flush_all_labelled | reflexivity].
  - destruct H as [Hout Hcur]. split; [exact Hout|].
    unfold has_label in *. simpl. now rewrite Hd'.
Qed.

Lemma fold_all_labelled (lines : list string) :
  forall st, all_labelled st -> all_labelled (fold_left step lines st).
Proof.
  induction lines as [|raw lines IH]; intros st H; [exact H|].
  simpl. apply IH. now apply step_all_labelled.
Qed.

(** Before the first header, a line without dashed marker changes
    nothing. *)
Lemma step_before_header (raw : string) :
  is_day_header raw = false -> is_dashed raw = false ->
  step ([], empty_day) raw = ([], empty_day).
Proof.
  unfold is_day_header, is_dashed, step. intros Hh Hd.
  apply orb_false_iff in Hd as [Hd H3]. apply orb_false_iff in Hd as [H1 H2].
  rewrite Hh, H1, H2, H3. cbn [truthy empty_day orb].
  rewrite !andb_false_r. now destruct (is_empty (strip raw)).
Qed.

Lemma fold_before_header (pre : list string) :
  Forall (fun raw => is_day_header raw = false /\ is_dashed raw = false) pre ->
  fold_left step pre ([], empty_day) = ([], empty_day).
Proof.
  induction 1 as [|raw pre [Hh Hd] _ IH]; [reflexivity|].
  simpl. now rewrite (step_before_header raw Hh Hd).
Qed.

(** X5: every day record the extractor emits, except possibly the first
    one, has a label; and when no line with a dashed marker comes before
    the first header, every record has a label. *)
Theorem schedule_records_labelled :
  (forall lines : list string,
      Forall (fun d => has_label d = true) (tl (parse_lines lines)))
  /\ (forall (pre : list string) (header : string) (rest : list string),
         Forall (fun raw => is_day_header raw = false /\ is_dashed raw = false)
                pre ->
         is_day_header header = true ->
         Forall (fun d => has_label d = true)
                (parse_lines (pre ++ header :: rest))).
Proof.
  split.
  - intros lines. unfold parse_lines.
    apply flush_labelled_after_first, fold_labelled_after_first.
    split; [constructor | now right].
  - intros pre header rest Hpre Hh. unfold parse_lines.
    rewrite fold_left_app, (fold_before_header pre Hpre). simpl fold_left.
    rewrite (step_day_header _ header Hh).
    apply flush_all_labelled, fold_all_labelled.
    split; [constructor | reflexivity].
Qed.

Lemma schedule_records_labelled_witness :
  Forall (fun d => has_label d = true)
         (parse_lines (["Here is your plan:"; "Topics: none yet"]
                       ++ "Day 1: start" :: ["- Topics: a"; "Day 2"; "Topics: b"])).
Proof.
  apply (proj2 schedule_records_labelled).
  - repeat constructor.
  - reflexivity.
Defined.

Lemma step_labels_from (known : list string) (st : state) (raw : string) :
  labels_from known st ->
  labels_from (known ++ (if is_day_header raw then [label_of raw] else []))
              (step st raw).
Proof.
  intros H d l Hd Hl. apply in_or_app.
  destruct (step_cases st raw) as [E | [[Hh E] | (d' & E & Hd')]];
    rewrite E in Hd; simpl in Hd.
  - left. now apply (H d l).
  - rewrite Hh. destruct Hd as [Hd | ->].
    + left. apply (H d l); [|exact Hl]. now apply flush_incl.
    + right. simpl in Hl. injection Hl as <-. now left.
  - left. destruct Hd as [Hd | ->].
    + apply (H d l); [now left | exact Hl].
    + apply (H (snd st) l); [now right | congruence].
Qed.

Lemma fold_labels_from (lines : list string) :
  forall (known : list string) (st : state),
    labels_from known st ->
    labels_from (known ++ map label_of (filter is_day_header lines))
                (fold_left step lines st).
Proof.
  induction lines as [|raw lines IH]; intros known st H.
  - simpl. now rewrite app_nil_r.
  - simpl fold_left.
    pose proof (IH _ _ (step_labels_from known st raw H)) as H'.
    intros d l Hd Hl. specialize (H' d l Hd Hl).
    simpl filter. destruct (is_day_header raw); simpl in *;
      rewrite <- ?app_assoc, ?app_nil_r in H'; exact H'.
Qed.

(** X6: the label of an emitted day record is the text before the first
    colon of a header line of the input, stripped. *)
Theorem schedule_labels_come_from_headers
    (lines : list string) (d : day_entry) (l : string) :
  In d (parse_lines lines) -> day d = Some l ->
  In l (map label_of (filter is_day_header lines)).
Proof.
  intros Hd Hl. unfold parse_lines in Hd. apply flush_incl in Hd.
  assert (H0 : labels_from [] ([], empty_day)).
  { intros d0 l0 [[] | ->]; discriminate. }
  exact (fold_labels_from lines [] _ H0 d l Hd Hl).
Qed.

Lemma schedule_labels_come_from_headers_witness :
  In "Day 2" (map label_of (filter is_day_header
                              ["Day 1"; "- Topics: a"; " Day 2 : b "; "Topics: c"])).
Proof.
  apply (schedule_labels_come_from_headers
           ["Day 1"; "- Topics: a"; " Day 2 : b "; "Topics: c"]
           (mk_day (Some "Day 2") (Some "c") None None) "Day 2").
  - vm_compute. right. left. reflexivity.
  - reflexivity.
Defined.

(** *** The whole operation *)

(** X7: for a positive number of days the schedule operation returns at
    least one day record, and every record it returns has a topics field,
    whatever the completion call does. *)
Theorem schedule_operation_not_empty
    (hours : Type) (format_hours : hours -> string)
    (create_completion : Z -> hours -> string -> completion)
    (pdf_text : string) (days : Z) (hours_per_day : hours) :
  (1 <= days)%Z ->
  let result :=
    generate_study_schedule_from_pdf format_hours create_completion
      pdf_text days hours_per_day in
  result <> []
  /\ Forall (fun d => exists t, topics d = Some t) result.
Proof.
  intros Hdays result.
  assert (Hfb : generate_fallback_schedule format_hours days hours_per_day <> []
                /\ Forall (fun d => exists t, topics d = Some t)
                     (generate_fallback_schedule format_hours days
                        hours_per_day)).
  { unfold generate_fallback_schedule. split.
    - intros E. apply (f_equal (@List.length day_entry)) in E.
      rewrite length_map, py_range_length in E. simpl in E. lia.
    - apply Forall_forall. intros d Hd.
      apply in_map_iff in Hd as (i & <- & _). eexists; reflexivity. }
  unfold result, generate_study_schedule_from_pdf.
  destruct (create_completion days hours_per_day
              (substring 0 (Z.to_nat 8000) pdf_text)) as [|text];
    [exact Hfb|].
  pose proof (parse_lines_emitted (split text nl)) as Hp.
  fold (parse_schedule text) in Hp.
  destruct (parse_schedule text) as [|d ds]; [exact Hfb|].
  split; [discriminate | exact Hp].
Qed.

Lemma schedule_operation_not_empty_witness :
  generate_study_schedule_from_pdf (fun h : string => h)
    (fun _ _ _ => Generated "no plan") "notes" 1 "2.0" <> [].
Proof.
  refine (proj1 (schedule_operation_not_empty string (fun h : string => h)
                   (fun _ _ _ => Generated "no plan") "notes" 1 "2.0" _)).
  lia.
Defined.

End ScheduleMoreFacts.

(** ** The lesson planner *)

Module LessonsFacts.

Import PyStr Schedule ScheduleFacts Lessons.
Local Open Scope Z_scope.

Lemma total_app (l1 l2 : list Z) : total (l1 ++ l2) = total l1 + total l2.
Proof.
  induction l1 as [|x l1 IH]; [reflexivity|]. simpl. rewrite IH. lia.
Qed.

(** The lessons of the first [n] days. *)
Lemma total_lessons_today (q r : Z) (n : nat) :
  0 <= r ->
  total (map (lessons_today q r)
             (map (fun k => 1 + Z.of_nat k) (seq 0 n)))
  = Z.of_nat n * q + Z.min (Z.of_nat n) r.
Proof.
  intros Hr. induction n as [|n IH]; [simpl; lia|].
  rewrite seq_S, !map_app, total_app, IH.
  cbn [map Nat.add]. unfold total at 1. cbn [fold_right].
  rewrite Nat2Z.inj_succ. unfold lessons_today.
  destruct (Z.leb_spec (1 + Z.of_nat n) r); lia.
Qed.

Section Plan.

Variable hours time : Type.
Variable study_time : hours -> Z -> Z -> option time.

(** When the hours of every day can be computed, the loop gives one dict
    per day, with the lessons of the day. *)
Lemma plan_days_done (h : hours) (q r : Z) (days : list Z) :
  (forall day, In day days ->
               exists t, study_time h (lessons_today q r day) q = Some t) ->
  exists schedule,
    plan_days study_time h q r days = Done schedule
    /\ map lessons schedule = map (lessons_today q r) days
    /\ map day_label schedule
       = map (fun day => ("Day " ++ str_of_int day)%string) days.
Proof.
  induction days as [|day days IH]; intros Ht.
  - now exists [].
  - destruct (Ht day (or_introl eq_refl)) as [t Et].
    destruct IH as (schedule & E & El & Ed).
    { intros d Hd. apply Ht. now right. }
    eexists. simpl. rewrite Et, E. split; [reflexivity|].
    simpl. now rewrite El, Ed.
Qed.

End Plan.

(** X8: for a positive number of study days, when the hours of each of
    the days 1 to [study_days] can be computed from the lessons of that
    day, the planner gives exactly [study_days] days, labelled Day 1, Day
    2, ...; the lessons of the days add up to [total_lessons]; every day
    has the quotient of the floor division or one lesson more, and the
    days with one more come first. *)
Theorem lessons_are_shared_out
    (hours time : Type) (study_time : hours -> Z -> Z -> option time)
    (total_lessons : Z) (hours_per_day : hours) (study_days : Z) :
  0 < study_days ->
  (forall day, 1 <= day <= study_days ->
     exists t,
       study_time hours_per_day
         (lessons_today (total_lessons / study_days)
            (total_lessons mod study_days) day)
         (total_lessons / study_days) = Some t) ->
  exists schedule,
    generate_study_schedule study_time total_lessons hours_per_day study_days
    = Done schedule
    /\ Z.of_nat (List.length schedule) = study_days
    /\ total (map lessons schedule) = total_lessons
    /\ (forall k : nat,
           (k < List.length schedule)%nat ->
           exists t,
             nth_error schedule k
             = Some (mk_lesson_day
                       ("Day " ++ str_of_int (1 + Z.of_nat k))%string
                       (total_lessons / study_days
                        + (if Z.of_nat k <? total_lessons mod study_days
                           then 1 else 0))
                       t)).
Proof.
  intros Hdays Htime. unfold generate_study_schedule.
  destruct (Z.eqb_spec study_days 0) as [E|_]; [lia|].
  set (q := total_lessons / study_days).
  set (r := total_lessons mod study_days).
  destruct (plan_days_done hours time study_time hours_per_day q r
              (py_range 1 (study_days + 1)))
    as (schedule & E & El & Ed).
  { intros day Hday. apply Htime.
    apply In_nth_error in Hday as [k Ek].
    assert (Hk : (k < Z.to_nat (study_days + 1 - 1))%nat).
    { rewrite <- py_range_length. apply nth_error_Some. congruence. }
    rewrite (py_range_nth 1 _ k Hk) in Ek.
    assert (Eday : day = 1 + Z.of_nat k) by congruence. lia. }
  exists schedule. split; [exact E|].
  assert (Hlen : List.length schedule = Z.to_nat study_days).
  { rewrite <- (length_map lessons), El, length_map, py_range_length.
    f_equal. lia. }
  assert (Hr : 0 <= r < study_days) by (apply Z.mod_pos_bound; lia).
  split; [lia|]. split.
  - rewrite El. unfold py_range.
    replace (Z.to_nat (study_days + 1 - 1)) with (Z.to_nat study_days)
      by (f_equal; lia).
    rewrite total_lessons_today by lia.
    rewrite Z2Nat.id by lia. rewrite Z.min_r by lia.
    unfold q, r. rewrite (Z.div_mod total_lessons study_days) at 3 by lia.
    lia.
  - intros k Hk.
    assert (Hk' : (k < Z.to_nat (study_days + 1 - 1))%nat)
      by (rewrite Hlen in Hk; replace (study_days + 1 - 1) with study_days by lia;
          exact Hk).
    destruct (nth_error schedule k) as [[l n t]|] eqn:Ek.
    + exists t.
      pose proof (map_nth_error lessons k schedule Ek) as E1.
      pose proof (map_nth_error day_label k schedule Ek) as E2.
      rewrite El, nth_error_map, (py_range_nth 1 _ k Hk') in E1.
      rewrite Ed, nth_error_map, (py_range_nth 1 _ k Hk') in E2.
      cbn [lessons day_label option_map] in E1, E2.
      assert (En : n = lessons_today q r (1 + Z.of_nat k)) by congruence.
      assert (Eday : l = ("Day " ++ str_of_int (1 + Z.of_nat k))%string)
        by congruence.
      rewrite En, Eday. f_equal. f_equal. unfold lessons_today.
      destruct (Z.leb_spec (1 + Z.of_nat k) r), (Z.ltb_spec (Z.of_nat k) r);
        lia.
    + apply nth_error_None in Ek. lia.
Qed.

Lemma lessons_are_shared_out_witness :
  exists schedule,
    generate_study_schedule bounded_study_time 10 2 3 = Done schedule
    /\ map lessons schedule = [4; 3; 3].
Proof.
  destruct (lessons_are_shared_out Z (Z * Z) bounded_study_time 10 2 3)
    as (schedule & E & _).
  - lia.
  - intros day Hday.
    assert (Hcases : day = 1 \/ day = 2 \/ day = 3) by lia.
    destruct Hcases as [-> | [-> | ->]]; eexists; vm_compute; reflexivity.
  - exists schedule. split; [exact E|].
    vm_compute in E. injection E as <-. reflexivity.
Defined.

(** X9: with zero study days the planner raises ZeroDivisionError and the
    endpoint answers with a 500; with a negative number of study days the
    planner gives an empty schedule, and the endpoint answers with it. *)
Theorem lessons_without_days
    (hours time : Type) (study_time : hours -> Z -> Z -> option time)
    (total_lessons : Z) (hours_per_day : hours) (study_days : Z) :
  (study_days = 0 ->
   generate_schedule study_time total_lessons hours_per_day study_days
   = PlanError500 ZeroDivisionError)
  /\ (study_days < 0 ->
      generate_schedule study_time total_lessons hours_per_day study_days
      = PlanOk []).
Proof.
  unfold generate_schedule, generate_study_schedule. split.
  - now intros ->.
  - intros H. destruct (Z.eqb_spec study_days 0) as [E|_]; [lia|].
    unfold py_range. replace (Z.to_nat (study_days + 1 - 1)) with 0%nat by lia.
    reflexivity.
Qed.

Lemma lessons_without_days_witness :
  generate_schedule (fun (h : Z) n q => Some (h * n, q)) 10 2 0
  = PlanError500 ZeroDivisionError
  /\ generate_schedule (fun (h : Z) n q => Some (h * n, q)) 10 2 (-3)
     = PlanOk [].
Proof.
  split.
  - exact (proj1 (lessons_without_days Z (Z * Z)
                    (fun (h : Z) n q => Some (h * n, q)) 10 2 0) eq_refl).
  - apply (proj2 (lessons_without_days Z (Z * Z)
                    (fun (h : Z) n q => Some (h * n, q)) 10 2 (-3))).
    lia.
Defined.

End LessonsFacts.

(** ** The export of quiz results *)

Module ExportFacts.

Import PyStr ResultsExport.
Local Open Scope string_scope.

Lemma eqb_empty (s : string) : String.eqb s "" = is_empty s.
Proof. now destruct s. Qed.

(** The comparison raises exactly when there is an answer and no correct
    answer to compare it with. *)
Lemma is_correct_raises (u c : string) :
  is_correct u c = None <-> c = "" /\ u <> "".
Proof.
  unfold is_correct. split.
  - destruct c as [|a c].
    + rewrite eqb_empty. destruct u; [discriminate|]. now split.
    + destruct (String.eqb u (String a c)); [discriminate|].
      destruct (String.eqb u (substring 0 3 (String a c))); [discriminate|].
      destruct (String.eqb u (String a "")); discriminate.
  - intros [-> Hu]. destruct u; [congruence | reflexivity].
Qed.

Lemma normalized_strip (s : string) : normalized (Some s) = strip s.
Proof. unfold normalized. now destruct s. Qed.

Lemma substring_first (a : ascii) (s : string) :
  substring 0 1 (String a s) = String a "".
Proof. now destruct s. Qed.

(** X10: the row the export writes for a result that has a correct answer.
    The comparison does not raise, and the row holds the question and the
    two answers as they were given.  Its last cell is Correct when the
    answer of the user, without the white space around it, is the correct
    answer without the white space around it, or its first three
    characters, or its first character, or a text of more than three
    characters found inside it; otherwise the cell is Incorrect, so for a
    missing or blank answer. *)
Theorem export_verdicts
    (csv_text : list (list string) -> string)
    (q u : option string) (c : string) :
  let user_answer := match u with Some s => strip s | None => "" end in
  let correct_answer := strip c in
  let matches :=
    user_answer = correct_answer
    \/ user_answer = substring 0 3 correct_answer
    \/ user_answer = substring 0 1 correct_answer
    \/ ((3 < String.length user_answer)%nat
        /\ contains correct_answer user_answer = true) in
  correct_answer <> "" ->
  exists result_cell,
    result_row (mk_result q u (Some c))
    = Some [cell q; cell u; c; result_cell]
    /\ export_results csv_text [mk_result q u (Some c)]
       = Csv (csv_text [header; [cell q; cell u; c; result_cell]])
    /\ (matches -> result_cell = "Correct")
    /\ (~ matches -> result_cell = "Incorrect").
Proof.
  intros user_answer correct_answer matches Hc.
  assert (Eu : normalized u = user_answer).
  { unfold user_answer. destruct u as [s|]; [apply normalized_strip|reflexivity]. }
  assert (Ec : normalized (Some c) = correct_answer) by apply normalized_strip.
  assert (Hcorrect : exists correct,
             is_correct user_answer correct_answer = Some correct
             /\ (correct = true <-> matches)).
  { unfold matches. clearbody user_answer correct_answer.
    destruct correct_answer as [|a k]; [congruence|].
    unfold is_correct. rewrite substring_first.
    destruct (String.eqb_spec user_answer (String a k)) as [E1|N1].
    { exists true. split; [reflexivity|]. split; [tauto | reflexivity]. }
    destruct (String.eqb_spec user_answer (substring 0 3 (String a k)))
      as [E2|N2].
    { exists true. split; [reflexivity|]. split; [tauto | reflexivity]. }
    destruct (String.eqb_spec user_answer (String a "")) as [E3|N3].
    { exists true. split; [reflexivity|]. split; [tauto | reflexivity]. }
    eexists. split; [reflexivity|]. cbn [is_empty negb andb].
    split.
    - intros H. apply andb_true_iff in H as [H H3].
      apply andb_true_iff in H as [_ H2]. apply Nat.ltb_lt in H3.
      right. right. right. now split.
    - intros [H | [H | [H | [H3 H2]]]]; try contradiction.
      apply Nat.ltb_lt in H3. rewrite H2, H3.
      destruct user_answer; [simpl in H3; discriminate | reflexivity]. }
  destruct Hcorrect as (correct & E & Hiff).
  exists (verdict correct).
  assert (Erow : result_row (mk_result q u (Some c))
                 = Some [cell q; cell u; c; verdict correct]).
  { unfold result_row. cbn [userAnswer correctAnswer question].
    rewrite Eu, Ec, E. reflexivity. }
  split; [exact Erow|]. split.
  - unfold export_results. cbn [result_rows]. now rewrite Erow.
  - split.
    + intros H. apply Hiff in H. now rewrite H.
    + intros H. destruct correct; [|reflexivity].
      destruct H. now apply Hiff.
Qed.

Lemma export_verdicts_witness :
  result_row (mk_result (Some "Capital of France?") (Some " Paris ")
                (Some "C) Paris "))
  = Some ["Capital of France?"; " Paris "; "C) Paris "; "Correct"]
  /\ result_row (mk_result (Some "Capital of France?") None (Some "C) Paris"))
     = Some ["Capital of France?"; ""; "C) Paris"; "Incorrect"].
Proof.
  split.
  - destruct (export_verdicts (fun _ => "") (Some "Capital of France?")
                (Some " Paris ") "C) Paris ") as (result_cell & E & _ & H & _).
    + discriminate.
    + rewrite E, H; [reflexivity|].
      right. right. right. split; [simpl; lia | reflexivity].
  - destruct (export_verdicts (fun _ => "") (Some "Capital of France?")
                None "C) Paris") as (result_cell & E & _ & _ & H).
    + discriminate.
    + rewrite E, H; [reflexivity|].
      intros [H1 | [H1 | [H1 | [H1 _]]]];
        [discriminate | discriminate | discriminate | simpl in H1; lia].
Defined.

Lemma result_row_raises (result : quiz_result) :
  result_row result = None <-> answer_without_key result = true.
Proof.
  unfold result_row, answer_without_key.
  destruct (is_correct _ _) eqn:E.
  - split; [discriminate|]. intros H. apply andb_true_iff in H as [H1 H2].
    assert (E' : is_correct (normalized (userAnswer result))
                   (normalized (correctAnswer result)) = None).
    { apply is_correct_raises.
      destruct (normalized (correctAnswer result)); [|discriminate].
      destruct (normalized (userAnswer result)); [discriminate|].
      split; [reflexivity | discriminate]. }
    congruence.
  - split; [|reflexivity]. intros _.
    apply is_correct_raises in E as [-> Hu].
    destruct (normalized (userAnswer result)); [congruence | reflexivity].
Qed.

Lemma result_rows_raises (results : list quiz_result) :
  result_rows results = None <-> existsb answer_without_key results = true.
Proof.
  induction results as [|result results IH]; [split; discriminate|].
  simpl. destruct (result_row result) as [row|] eqn:E.
  - assert (H : answer_without_key result = false).
    { destruct (answer_without_key result) eqn:A; [|reflexivity].
      apply result_row_raises in A. congruence. }
    rewrite H. simpl. rewrite <- IH.
    destruct (result_rows results); split; congruence.
  - apply result_row_raises in E. rewrite E. now split.
Qed.

Lemma result_rows_cells (results : list quiz_result) (rows : list (list string)) :
  result_rows results = Some rows ->
  map (firstn 3) rows
  = map (fun r => [cell (question r); cell (userAnswer r);
                   cell (correctAnswer r)]) results.
Proof.
  revert rows. induction results as [|result results IH]; intros rows E.
  - injection E as <-. reflexivity.
  - simpl in E. unfold result_row in E.
    destruct (is_correct _ _); [|discriminate].
    destruct (result_rows results) as [rows'|]; [|discriminate].
    injection E as <-. cbn [map]. f_equal. now apply IH.
Qed.

(** X11: the export answers 400 without results; it fails with a 500,
    writing nothing, exactly when some result has an answer of the user
    and no correct answer; otherwise it writes the header and one row per
    result, in order, with the question and the two answers as they were
    given. *)
Theorem export_results_outcome
    (csv_text : list (list string) -> string) (results : list quiz_result) :
  (results = [] -> export_results csv_text results = NoResults400)
  /\ (results <> [] ->
      (existsb answer_without_key results = true ->
       export_results csv_text results = IndexError500)
      /\ (existsb answer_without_key results = false ->
          exists rows,
            export_results csv_text results = Csv (csv_text (header :: rows))
            /\ List.length rows = List.length results
            /\ map (firstn 3) rows
               = map (fun r => [cell (question r); cell (userAnswer r);
                                cell (correctAnswer r)]) results)).
Proof.
  split; [now intros ->|]. intros Hne. unfold export_results.
  destruct results as [|r rs]; [congruence|]. split.
  - intros H. apply result_rows_raises in H. now rewrite H.
  - intros H. destruct (result_rows (r :: rs)) as [rows|] eqn:E.
    + exists rows. split; [reflexivity|].
      pose proof (result_rows_cells _ _ E) as Hc. split; [|exact Hc].
      apply (f_equal (@List.length _)) in Hc. now rewrite !length_map in Hc.
    + apply result_rows_raises in E. congruence.
Qed.

Lemma export_results_outcome_witness :
  export_results (fun rows => String.concat ";" (map (String.concat ",") rows))
    [mk_result (Some "Capital of France?") (Some "C") (Some "C) Paris");
     mk_result (Some "2 + 2?") (Some "5") None]
  = IndexError500.
Proof.
  apply (proj2 (export_results_outcome
                  (fun rows => String.concat ";" (map (String.concat ",") rows))
                  [mk_result (Some "Capital of France?") (Some "C")
                     (Some "C) Paris");
                   mk_result (Some "2 + 2?") (Some "5") None])).
  - discriminate.
  - reflexivity.
Defined.

End ExportFacts.

(** ** The tables *)

Module SqliteFacts.

Import Sqlite.
Local Open Scope Z_scope.

Lemma largest_bound (ids : list Z) (i : Z) : In i ids -> i <= largest ids.
Proof.
  induction ids as [|j ids IH]; [intros []|].
  intros [-> | H]; simpl; [lia|]. specialize (IH H). lia.
Qed.

Lemma largest_nonneg (ids : list Z) : 0 <= largest ids.
Proof. induction ids; simpl; lia. Qed.

Section Table.

Variable row : Type.
Variable id : row -> Z.

(** The id of a new row is above the ids of all the rows and above the
    sequence. *)
Lemma next_id_fresh (t : table row) :
  sequence t < next_id id t
  /\ forall r, In r (rows t) -> id r < next_id id t.
Proof.
  unfold next_id. split; [lia|]. intros r Hr.
  pose proof (largest_bound (map id (rows t)) (id r) (in_map id _ _ Hr)). lia.
Qed.

Lemma insert_well_formed (make : Z -> row) (t : table row) :
  (forall i, id (make i) = i) ->
  0 <= sequence t ->
  well_formed id t -> well_formed id (snd (insert id make t)).
Proof.
  intros Hmake Hseq [Hnd Hall]. destruct (next_id_fresh t) as [Hs Hf].
  unfold well_formed, insert. cbn [snd rows sequence]. split.
  - rewrite map_app. cbn [map]. rewrite Hmake.
    apply NoDup_app; [exact Hnd | repeat constructor; intros [] |].
    intros i Hi [<- | []]. apply in_map_iff in Hi as (r & E & Hr).
    specialize (Hf r Hr). lia.
  - apply Forall_app. split.
    + eapply Forall_impl; [|exact Hall]. intros r Hr. cbn beta in *. lia.
    + repeat constructor; rewrite Hmake; lia.
Qed.

Lemma delete_well_formed (key : Z) (t : table row) :
  well_formed id t -> well_formed id (delete id key t).
Proof.
  intros [Hnd Hall]. unfold well_formed, delete. split; cbn [rows sequence].
  - clear Hall. induction (rows t) as [|r l IH]; [constructor|].
    inversion Hnd as [|? ? Hr Hl]; subst. simpl.
    destruct (id r =? key); simpl; [now apply IH|].
    constructor; [|now apply IH].
    intros Hin. apply Hr. apply in_map_iff in Hin as (r' & E & Hr').
    apply filter_In in Hr' as [Hr' _]. apply in_map_iff. now exists r'.
  - apply Forall_forall. intros r Hr. apply filter_In in Hr as [Hr _].
    rewrite Forall_forall in Hall. now apply Hall.
Qed.

(** [ORDER BY] rearranges the rows and puts the larger keys first. *)
Lemma insert_desc_perm (key : row -> Z) (r : row) (l : list row) :
  Permutation (insert_desc key r l) (r :: l).
Proof.
  induction l as [|r' l IH]; [reflexivity|]. simpl.
  destruct (key r' <=? key r); [reflexivity|].
  rewrite IH. apply perm_swap.
Qed.

Lemma order_by_desc_perm (key : row -> Z) (l : list row) :
  Permutation (order_by_desc key l) l.
Proof.
  induction l as [|r l IH]; [reflexivity|]. simpl.
  rewrite insert_desc_perm. now constructor.
Qed.

Lemma insert_desc_sorted (key : row -> Z) (r : row) (l : list row) :
  Sorted (fun a b => key b <= key a) l ->
  Sorted (fun a b => key b <= key a) (insert_desc key r l).
Proof.
  induction l as [|a l IH]; intros Hs; [repeat constructor|].
  apply Sorted_inv in Hs as [Hs Hhd]. simpl.
  destruct (Z.leb_spec (key a) (key r)) as [Hle|Hgt].
  - repeat constructor; [exact Hs | exact Hhd | lia].
  - constructor; [now apply IH|].
    destruct l as [|b l]; simpl; [constructor; lia|].
    apply HdRel_inv in Hhd.
    destruct (key b <=? key r); constructor; lia.
Qed.

Lemma order_by_desc_sorted (key : row -> Z) (l : list row) :
  Sorted (fun a b => key b <= key a) (order_by_desc key l).
Proof.
  induction l as [|r l IH]; [constructor|]. simpl.
  now apply insert_desc_sorted.
Qed.

(** Rows that are in descending order already stay as they are: rows
    with equal keys keep their order. *)
Lemma order_by_desc_stable (key : row -> Z) (l : list row) :
  Sorted (fun a b => key b <= key a) l -> order_by_desc key l = l.
Proof.
  induction 1 as [|a l _ IH Hhd]; [reflexivity|]. simpl. rewrite IH.
  destruct Hhd as [|b l Hb]; [reflexivity|]. simpl.
  destruct (Z.leb_spec (key b) (key a)); [reflexivity | lia].
Qed.

Lemma Sorted_map_key (key : row -> Z) (l : list row) :
  Sorted (fun a b => key b <= key a) l ->
  Sorted (fun x y => y <= x) (map key l).
Proof.
  induction 1 as [|a l _ IH Hhd]; [constructor|]. simpl.
  constructor; [exact IH|]. destruct Hhd; simpl; now constructor.
Qed.

End Table.

End SqliteFacts.

(** ** User accounts *)

Module AccountsFacts.

Import PyStr Sqlite SqliteFacts Accounts.
Local Open Scope string_scope.

Lemma select_user_found (name : string) (t : table user) (u : user) :
  select_user name t = Some u -> In u (rows t) /\ username u = name.
Proof.
  intros H. apply find_some in H as [Hin E]. split; [exact Hin|].
  now apply String.eqb_eq.
Qed.

Lemma select_user_none (name : string) (t : table user) :
  select_user name t = None -> ~ In name (map username (rows t)).
Proof.
  intros H Hin. apply in_map_iff in Hin as (u & E & Hu).
  pose proof (find_none _ _ H u Hu) as F. cbn beta in F.
  rewrite E, String.eqb_refl in F. discriminate.
Qed.

(** After the insertion of a user the selection finds it. *)
Lemma select_after_insert (name : string) (t : table user) :
  select_user name t = None ->
  select_user name (snd (insert id (fun i => mk_user i name) t))
  = Some (mk_user (next_id id t) name).
Proof.
  intros H. unfold select_user, insert. cbn [snd rows].
  unfold select_user in H.
  induction (rows t) as [|u l IH]; simpl.
  - now rewrite String.eqb_refl.
  - simpl in H. destruct (String.eqb (username u) name); [discriminate|].
    now apply IH.
Qed.

(** X14: logging in is repeatable and follows registration.  A user who
    registered, or logged in for the first time, gets the same id at every
    later login, and these logins leave the table as it is; registering the
    same name again is refused with a 409. *)
Theorem login_returns_the_registered_id
    (name : string) (t : table user)
    (response : account_response) (t' : table user) :
  (register_user (Some name) (Some t) = (response, Some t')
   \/ login_user (Some name) (Some t) = (response, Some t')) ->
  forall user_id, response = Account user_id name ->
    login_user (Some name) (Some t') = (Account user_id name, Some t')
    /\ register_user (Some name) (Some t') = (UsernameExists409, Some t').
Proof.
  intros H user_id ->.
  assert (Hgiven : exists n, given (Some name) = Some n /\ n = name).
  { unfold register_user, login_user in H.
    destruct (given (Some name)) as [n|] eqn:G.
    - exists n. split; [reflexivity|]. unfold given in G.
      destruct (is_empty name); congruence.
    - destruct H as [H | H]; discriminate. }
  destruct Hgiven as (n & G & ->).
  assert (Hsel : select_user name t' = Some (mk_user user_id name)).
  { unfold register_user, login_user in H. rewrite G in H.
    destruct (select_user name t) as [u|] eqn:S.
    - destruct H as [H | H]; [discriminate|].
      injection H as <- <-. destruct (select_user_found _ _ _ S) as [_ E].
      rewrite S. destruct u as [i n]. simpl in *. now subst.
    - pose proof (select_after_insert name t S) as S'.
      unfold insert in H, S'. cbn [snd] in S'.
      destruct H as [H | H]; injection H as <- <-; exact S'. }
  unfold login_user, register_user. rewrite G, Hsel. now split.
Qed.

Lemma login_returns_the_registered_id_witness :
  login_user (Some "ada")
    (Some (mk_table [mk_user 1 "bob"; mk_user 2 "ada"] 2))
  = (Account 2 "ada", Some (mk_table [mk_user 1 "bob"; mk_user 2 "ada"] 2))
  /\ register_user (Some "ada")
       (Some (mk_table [mk_user 1 "bob"; mk_user 2 "ada"] 2))
     = (UsernameExists409,
        Some (mk_table [mk_user 1 "bob"; mk_user 2 "ada"] 2)).
Proof.
  apply (login_returns_the_registered_id "ada"
           (mk_table [mk_user 1 "bob"] 1) (Account 2 "ada")
           (mk_table [mk_user 1 "bob"; mk_user 2 "ada"] 2)).
  - left. reflexivity.
  - reflexivity.
Defined.

Lemma serve_some (t : table user) (req : account_request) :
  exists t', serve (Some t) req = Some t'
             /\ ((well_formed id t /\ unique_names t /\ (0 <= sequence t)%Z) ->
                 well_formed id t' /\ unique_names t' /\ (0 <= sequence t')%Z).
Proof.
  assert (Hins : forall name,
             select_user name t = None ->
             (well_formed id t /\ unique_names t /\ (0 <= sequence t)%Z) ->
             let t' := snd (insert id (fun i => mk_user i name) t) in
             well_formed id t' /\ unique_names t' /\ (0 <= sequence t')%Z).
  { intros name S (Hwf & Hun & Hseq) t'. split; [|split].
    - now apply insert_well_formed.
    - unfold t', unique_names, insert. cbn [snd rows].
      rewrite map_app. cbn [map username].
      apply NoDup_app; [exact Hun | repeat constructor; intros [] |].
      intros n Hn [<- | []]. now apply (select_user_none _ _ S).
    - unfold t', insert, next_id. cbn [snd sequence]. lia. }
  destruct req as [username | username]; unfold serve, register_user, login_user;
    (destruct (given username) as [name|]; [|now exists t]);
    (destruct (select_user name t) as [u|] eqn:S;
     [now exists t | eexists; split; [reflexivity | apply (Hins name S)]]).
Qed.

(** X15: whatever requests to register and to log in reach the two
    endpoints, starting from the empty table, the ids of the users are
    distinct and so are their names. *)
Theorem accounts_stay_unique (requests : list account_request) :
  exists t,
    fold_left serve requests (Some empty) = Some t
    /\ NoDup (map id (rows t))
    /\ NoDup (map username (rows t)).
Proof.
  assert (H : forall reqs t,
             well_formed id t /\ unique_names t /\ (0 <= sequence t)%Z ->
             exists t', fold_left serve reqs (Some t) = Some t'
                        /\ well_formed id t' /\ unique_names t').
  { induction reqs as [|req reqs IH]; intros t Ht.
    - exists t. split; [reflexivity|]. split; apply Ht.
    - destruct (serve_some t req) as (t1 & E & H1). simpl. rewrite E.
      apply IH. now apply H1. }
  destruct (H requests empty) as (t & E & [Hnd _] & Hun).
  { repeat split; try constructor. simpl. lia. }
  exists t. now repeat split.
Qed.

End AccountsFacts.

(** ** Quiz attempts *)

Module AttemptsFacts.

Import PyStr Sqlite SqliteFacts Attempts.
Local Open Scope Z_scope.






(** 14 of 25 is shown as 56.00000000000001 percent. *)
Example percentage_is_rounded :
  percentage 14 25 = S754_finite false 7881299347898369 (-47).
Proof. vm_compute. reflexivity. Qed.

End AttemptsFacts.

(** ** Custom quizzes *)

Module CustomQuizzesFacts.

Import PyStr Sqlite SqliteFacts CustomQuizzes.
Local Open Scope Z_scope.

Lemma select_quiz_found (key : Z) (t : table custom_quiz) (r : custom_quiz) :
  select_quiz key t = Some r -> In r (rows t) /\ id r = key.
Proof.
  intros H. apply find_some in H as [Hin E]. split; [exact Hin | lia].
Qed.

(** The selection of a row that was just inserted. *)
Lemma select_inserted (make : Z -> custom_quiz) (t : table custom_quiz) :
  (forall i, id (make i) = i) ->
  select_quiz (next_id id t) (snd (insert id make t))
  = Some (make (next_id id t)).
Proof.
  intros Hmake. unfold select_quiz, insert. cbn [snd rows].
  destruct (next_id_fresh _ id t) as [_ Hfresh].
  induction (rows t) as [|r l IH]; simpl.
  - rewrite Hmake, Z.eqb_refl. reflexivity.
  - destruct (Z.eqb_spec (id r) (next_id id t)) as [E|_].
    + specialize (Hfresh r (or_introl eq_refl)). lia.
    + apply IH. intros r' Hr'. apply Hfresh. now right.
Qed.

(** The selection of another row is not changed by an insertion. *)
Lemma select_other_inserted (make : Z -> custom_quiz) (key : Z)
    (t : table custom_quiz) :
  (forall i, id (make i) = i) -> key <> next_id id t ->
  select_quiz key (snd (insert id make t)) = select_quiz key t.
Proof.
  intros Hmake Hkey. unfold select_quiz, insert. cbn [snd rows].
  induction (rows t) as [|r l IH]; simpl.
  - rewrite Hmake. destruct (Z.eqb_spec (next_id id t) key); [lia | reflexivity].
  - destruct (id r =? key); [reflexivity | exact IH].
Qed.

Lemma select_deleted (key key' : Z) (t : table custom_quiz) :
  select_quiz key' (delete id key t)
  = if key' =? key then None else select_quiz key' t.
Proof.
  unfold select_quiz, delete. cbn [rows].
  induction (rows t) as [|r l IH]; simpl.
  - now destruct (key' =? key).
  - destruct (Z.eqb_spec (id r) key) as [E|E]; simpl.
    + rewrite IH. destruct (Z.eqb_spec key' key) as [K|K]; [reflexivity|].
      destruct (Z.eqb_spec (id r) key'); [lia | reflexivity].
    + destruct (Z.eqb_spec (id r) key') as [E'|E'].
      * destruct (Z.eqb_spec key' key); [lia | reflexivity].
      * exact IH.
Qed.

Section Json.

Variable json : Type.
Variable truthy : json -> bool.
Variable dumps : json -> string.
Variable loads : string -> option json.

(** X19: a quiz that was created is found again under the id the creation
    returned, with the user, the title, the description, the questions and
    the visibility that were given (a missing description is the empty
    string, a missing visibility is private), provided the JSON text of
    the questions reads back as the questions; the quizzes stored before
    are found as before. *)
Theorem created_quiz_is_found
    (now : Z) (data : new_quiz json) (t t' : table custom_quiz) (quiz_id : Z) :
  (forall qs, loads (dumps qs) = Some qs) ->
  create_custom_quiz truthy dumps now data (Some t)
  = (Created quiz_id, Some t') ->
  (exists user name qs,
      new_user_id data = Some user /\ new_title data = Some name
      /\ new_questions data = Some qs
      /\ get_custom_quiz loads quiz_id (Some t')
         = Found (mk_quiz_details quiz_id user name
                    (match new_description data with
                     | Some d => d
                     | None => ""%string
                     end)
                    qs
                    (match new_is_public data with
                     | Some b => b
                     | None => false
                     end)))
  /\ (forall other, other <> quiz_id ->
        get_custom_quiz loads other (Some t')
        = get_custom_quiz loads other (Some t)).
Proof.
  intros Hjson H. unfold create_custom_quiz in H.
  destruct (new_user_id data) as [user|]; [|discriminate].
  destruct (new_title data) as [name|]; [|discriminate].
  destruct (new_questions data) as [qs|]; [|discriminate].
  destruct ((user =? 0) || is_empty name || negb (truthy qs));
    [discriminate|].
  destruct (fits user); [|discriminate].
  destruct (fits (next_id id t)) eqn:Hfits; [|discriminate].
  cbn [andb] in H.
  set (make := fun i => mk_custom_quiz i user name
                          match new_description data with
                          | Some d => d
                          | None => ""%string
                          end (dumps qs)
                          match new_is_public data with
                          | Some b => b
                          | None => false
                          end now) in *.
  assert (Hmake : forall i, id (make i) = i) by reflexivity.
  unfold insert in H. injection H as <- <-. split.
  - exists user, name, qs. repeat split. unfold get_custom_quiz.
    rewrite Hfits. cbn [negb].
    pose proof (select_inserted make t Hmake) as S.
    unfold insert in S. cbn [snd] in S. rewrite S.
    cbn [questions make]. rewrite Hjson. reflexivity.
  - intros other Hother. unfold get_custom_quiz.
    pose proof (select_other_inserted make other t Hmake Hother) as S.
    unfold insert in S. cbn [snd] in S. now rewrite S.
Qed.

(** X20: for an id that fits an INTEGER, deleting a quiz that exists
    removes it and only it: it is not found any more, the other quizzes
    are found as before; deleting a quiz that does not exist answers 404
    and leaves the table as it is.  For an id that does not fit, the
    statement raises: the answer is a 500 and the table is left as it
    is. *)
Theorem deleted_quiz_is_gone (quiz_id : Z) (t : table custom_quiz) :
  (fits quiz_id = true -> select_quiz quiz_id t <> None ->
   exists t',
     delete_custom_quiz quiz_id (Some t) = (Deleted, Some t')
     /\ get_custom_quiz loads quiz_id (Some t') = NotFound404
     /\ forall other, other <> quiz_id ->
          get_custom_quiz loads other (Some t')
          = get_custom_quiz loads other (Some t))
  /\ (fits quiz_id = true -> select_quiz quiz_id t = None ->
      delete_custom_quiz quiz_id (Some t) = (DeleteNotFound404, Some t))
  /\ (fits quiz_id = false ->
      delete_custom_quiz quiz_id (Some t) = (DeleteError500, Some t)
      /\ get_custom_quiz loads quiz_id (Some t) = GetError500).
Proof.
  unfold delete_custom_quiz. split; [|split].
  - intros Hfits H. rewrite Hfits. cbn [negb].
    destruct (select_quiz quiz_id t); [|congruence].
    eexists. split; [reflexivity|]. unfold get_custom_quiz. split.
    + now rewrite Hfits, select_deleted, Z.eqb_refl.
    + intros other Ho. rewrite select_deleted.
      destruct (Z.eqb_spec other quiz_id); [lia | reflexivity].
  - intros Hfits ->. now rewrite Hfits.
  - intros Hfits. unfold get_custom_quiz. now rewrite Hfits.
Qed.

End Json.

(** X21: an id is not given twice.  In a table whose ids are not above its
    sequence, the quiz created after the deletion of a quiz gets an id
    above the id of the deleted quiz and above the ids of all the quizzes
    of the table. *)
Theorem quiz_ids_are_not_reused
    (json : Type) (truthy : json -> bool) (dumps : json -> string)
    (now : Z) (data : new_quiz json) (deleted : Z)
    (t t1 t2 : table custom_quiz) (quiz_id : Z) :
  well_formed id t ->
  delete_custom_quiz deleted (Some t) = (Deleted, Some t1) ->
  create_custom_quiz truthy dumps now data (Some t1)
  = (Created quiz_id, Some t2) ->
  deleted < quiz_id /\ Forall (fun r => id r < quiz_id) (rows t).
Proof.
  intros [_ Hall] Hd Hc. unfold delete_custom_quiz in Hd.
  destruct (fits deleted); [|discriminate]. cbn [negb] in Hd.
  destruct (select_quiz deleted t) as [r|] eqn:S; [|discriminate].
  injection Hd as <-. unfold create_custom_quiz in Hc.
  destruct (new_user_id data) as [user|]; [|discriminate].
  destruct (new_title data) as [name|]; [|discriminate].
  destruct (new_questions data) as [qs|]; [|discriminate].
  destruct ((user =? 0) || is_empty name || negb (truthy qs));
    [discriminate|].
  destruct (fits user && fits (next_id id (delete id deleted t)));
    [|discriminate].
  unfold insert in Hc. injection Hc as <- _.
  unfold next_id, delete. cbn [sequence rows].
  rewrite Forall_forall in Hall. split.
  - apply select_quiz_found in S as [Hr <-]. specialize (Hall r Hr). lia.
  - apply Forall_forall. intros r' Hr'. specialize (Hall r' Hr'). lia.
Qed.

(** X22: what the list shows.  With a user and public quizzes included,
    the quizzes of the user and the public ones; with a user and public
    quizzes excluded, the quizzes of the user only; without user, the
    public quizzes, whether public quizzes are included or not.  A private
    quiz of another user is never listed, and the list is ordered, the most
    recent first. *)
Theorem listed_quizzes_are_visible
    (user : option Z) (include_public : bool) (t : table custom_quiz) :
  exists quizzes,
    list_custom_quizzes user include_public (Some t) = Some quizzes
    /\ Permutation quizzes
         (map listed_of (filter (listed_where user include_public) (rows t)))
    /\ Sorted (fun x y => y <= x) (map listed_created_at quizzes)
    /\ Forall (fun q => listed_is_public q = true
                        \/ user = Some (listed_user_id q)) quizzes
    /\ (user = None ->
        Permutation quizzes (map listed_of (filter is_public (rows t)))).
Proof.
  eexists. split; [reflexivity|].
  pose proof (order_by_desc_perm _ created_at
                (filter (listed_where user include_public) (rows t))) as Hp.
  split; [now apply Permutation_map|]. split; [|split].
  - rewrite map_map.
    change (fun x => listed_created_at (listed_of x)) with created_at.
    apply Sorted_map_key, order_by_desc_sorted.
  - apply Forall_forall. intros q Hq.
    apply in_map_iff in Hq as (r & <- & Hr).
    apply (Permutation_in _ Hp) in Hr. apply filter_In in Hr as [_ Hw].
    unfold listed_where in Hw. cbn [listed_of listed_is_public listed_user_id].
    destruct user as [uid|]; [|now left].
    destruct include_public.
    + apply orb_true_iff in Hw as [Hw | Hw]; [right | now left].
      f_equal. lia.
    + right. f_equal. lia.
  - intros ->. now apply Permutation_map.
Qed.

Lemma created_quiz_is_found_witness :
  get_custom_quiz (fun text => Some text) 5
    (Some (mk_table [mk_custom_quiz 1 3 "Capitals" "" "[q1]" true 50] 1))
  = get_custom_quiz (fun text => Some text) 5 (Some empty).
Proof.
  apply (proj2 (created_quiz_is_found string (fun qs => negb (is_empty qs))
                  (fun qs => qs) (fun text => Some text) 50
                  (mk_new_quiz (Some 3) (Some "Capitals"%string) None
                     (Some "[q1]"%string) (Some true))
                  empty
                  (mk_table [mk_custom_quiz 1 3 "Capitals" "" "[q1]" true 50] 1)
                  1 (fun qs => eq_refl) eq_refl) 5).
  lia.
Defined.

Lemma deleted_quiz_is_gone_witness :
  (exists t',
      delete_custom_quiz 1 (Some two_quizzes) = (Deleted, Some t')
      /\ rows t' = [mk_custom_quiz 2 3 "Rivers" "" "[q2]" false 60]
      /\ get_custom_quiz (fun text => Some text) 1 (Some t') = NotFound404
      /\ get_custom_quiz (fun text => Some text) 2 (Some t')
         = get_custom_quiz (fun text => Some text) 2 (Some two_quizzes))
  /\ delete_custom_quiz 4 (Some two_quizzes)
     = (DeleteNotFound404, Some two_quizzes)
  /\ delete_custom_quiz (2 ^ 63) (Some two_quizzes)
     = (DeleteError500, Some two_quizzes).
Proof.
  split; [|split].
  - destruct (proj1 (deleted_quiz_is_gone string (fun text => Some text) 1
                       two_quizzes) eq_refl ltac:(discriminate))
      as (t' & E & Hgone & Hothers).
    exists t'. split; [exact E|]. split.
    + vm_compute in E. injection E as <-. reflexivity.
    + split; [exact Hgone|]. apply Hothers. lia.
  - exact (proj1 (proj2 (deleted_quiz_is_gone string (fun text => Some text) 4
                           two_quizzes)) eq_refl eq_refl).
  - exact (proj1 (proj2 (proj2 (deleted_quiz_is_gone string
                                  (fun text => Some text) (2 ^ 63)
                                  two_quizzes)) eq_refl)).
Defined.

Lemma quiz_ids_are_not_reused_witness :
  2 < 3
  /\ Forall (fun r => id r < 3)
       (rows (mk_table [mk_custom_quiz 1 3 "Capitals" "" "[q1]" true 50;
                        mk_custom_quiz 2 3 "Rivers" "" "[q2]" false 60] 2)).
Proof.
  apply (quiz_ids_are_not_reused string (fun qs => negb (is_empty qs))
           (fun qs => qs) 70
           (mk_new_quiz (Some 3) (Some "Lakes"%string) None
              (Some "[q3]"%string) None)
           2
           (mk_table [mk_custom_quiz 1 3 "Capitals" "" "[q1]" true 50;
                      mk_custom_quiz 2 3 "Rivers" "" "[q2]" false 60] 2)
           (mk_table [mk_custom_quiz 1 3 "Capitals" "" "[q1]" true 50] 2)
           (mk_table [mk_custom_quiz 1 3 "Capitals" "" "[q1]" true 50;
                      mk_custom_quiz 3 3 "Lakes" "" "[q3]" false 70] 3)
           3).
  - split.
    + apply NoDup_cons; [simpl; intuition lia|].
      apply NoDup_cons; [simpl; tauto | constructor].
    + repeat (constructor; [simpl; lia|]). constructor.
  - reflexivity.
  - reflexivity.
Defined.

Lemma listed_quizzes_are_visible_witness :
  exists quizzes,
    list_custom_quizzes None false
      (Some (mk_table [mk_custom_quiz 1 3 "Capitals" "" "[q1]" true 50;
                       mk_custom_quiz 2 3 "Rivers" "" "[q2]" false 60] 2))
    = Some quizzes
    /\ Permutation quizzes [mk_listed_quiz 1 3 "Capitals" "" 50 true].
Proof.
  destruct (listed_quizzes_are_visible None false
              (mk_table [mk_custom_quiz 1 3 "Capitals" "" "[q1]" true 50;
                         mk_custom_quiz 2 3 "Rivers" "" "[q2]" false 60] 2))
    as (quizzes & E & _ & _ & _ & H).
  exists quizzes. split; [exact E|]. exact (H eq_refl).
Defined.

End CustomQuizzesFacts.

(** ** The schedule operation *)

Module ScheduleEndpointFacts.

Import PyStr Schedule Quiz ScheduleMoreFacts ScheduleEndpoint.
Local Open Scope string_scope.

(** X23: the responses of the schedule operation.  A request without
    file is answered with a 400; with a file, parameters that are not
    numbers are answered with a 400, whatever the file name; with
    parameters that are numbers, an empty file name or a document without
    text is answered with a 400; a failing text extraction is the only
    cause of a 500; otherwise the answer is a schedule, whatever the
    completion call does, with the file name and the parameters of the
    request, and for a positive number of days the schedule is not empty
    and every day has its topics. *)
Theorem schedule_endpoint_responses
    (hours : Type) (format_hours : hours -> string)
    (create_completion : Z -> hours -> string -> completion)
    (extract_text_from_pdf : result string)
    (req : schedule_request hours) :
  let response :=
    generate_schedule_endpoint format_hours create_completion
      extract_text_from_pdf req in
  (has_file req = false -> response = ScheduleError 400 "No file provided")
  /\ (has_file req = true -> parameters req = None ->
      response
      = ScheduleError 400
          "Invalid parameters. Please provide valid numbers for duration and hours.")
  /\ (has_file req = true ->
      forall days hours_per_day,
        parameters req = Some (days, hours_per_day) ->
        (is_empty (filename req) = true ->
         response = ScheduleError 400 "No file selected")
        /\ (is_empty (filename req) = false ->
            match extract_text_from_pdf with
            | Raise e =>
                response
                = ScheduleError 500
                    ("An error occurred: " ++ Endpoint.exn_message e)
            | Ok pdf_text =>
                if is_empty (strip pdf_text)
                then response
                     = ScheduleError 400
                         "Could not extract text from the PDF file"
                else
                  exists schedule,
                    response
                    = ScheduleOk schedule (filename req) days hours_per_day
                    /\ ((1 <= days)%Z -> schedule <> [])
                    /\ Forall (fun d => exists t, topics d = Some t) schedule
            end)).
Proof.
  intros response. unfold response, generate_schedule_endpoint.
  split; [now intros ->|]. split; [now intros -> ->|].
  intros -> days hours_per_day ->. cbn [negb].
  split; [now intros ->|]. intros ->.
  destruct extract_text_from_pdf as [pdf_text|e]; [|reflexivity].
  destruct (is_empty (strip pdf_text)); [reflexivity|].
  eexists. split; [reflexivity|]. split.
  - intros Hdays.
    apply (schedule_operation_not_empty hours format_hours create_completion
             pdf_text days hours_per_day Hdays).
  - unfold generate_study_schedule_from_pdf.
    assert (Hfb : Forall (fun d => exists t, topics d = Some t)
                    (generate_fallback_schedule format_hours days
                       hours_per_day)).
    { apply Forall_forall. intros d Hd.
      apply in_map_iff in Hd as (i & <- & _). eexists; reflexivity. }
    destruct (create_completion days hours_per_day
                (substring 0 (Z.to_nat 8000) pdf_text)) as [|text];
      [exact Hfb|].
    pose proof (ScheduleFacts.parse_lines_emitted (split text nl)) as Hp.
    fold (parse_schedule text) in Hp.
    destruct (parse_schedule text); [exact Hfb | exact Hp].
Qed.

Lemma schedule_endpoint_responses_witness :
  generate_schedule_endpoint (fun h : string => h) (fun _ _ _ => Failed)
    (Ok "   ") (mk_schedule_request true (Some (3%Z, "2.0")) "notes.pdf")
  = ScheduleError 400 "Could not extract text from the PDF file"
  /\ generate_schedule_endpoint (fun h : string => h) (fun _ _ _ => Failed)
       (Ok "text") (mk_schedule_request true None "")
     = ScheduleError 400
         "Invalid parameters. Please provide valid numbers for duration and hours.".
Proof.
  split.
  - exact (proj2 (proj2 (proj2 (schedule_endpoint_responses string
                                  (fun h : string => h)
                                  (fun _ _ _ => Failed) (Ok "   ")
                                  (mk_schedule_request true (Some (3%Z, "2.0"))
                                     "notes.pdf")))
                    eq_refl 3%Z "2.0" eq_refl) eq_refl).
  - exact (proj1 (proj2 (schedule_endpoint_responses string
                           (fun h : string => h)
                           (fun _ _ _ => Failed) (Ok "text")
                           (mk_schedule_request true None "")))
             eq_refl eq_refl).
Defined.

End ScheduleEndpointFacts.
